(** * Swedish holiday calendar generator: shallow embedding of [generator.py]

    The development follows the layout of the program.

    - [PyDate] holds the fragment of Python's [datetime] module that the
      generator calls: the validating [date] constructor, proleptic Gregorian
      ordinals, [weekday], and [date +/- timedelta].
    - [easter] is the western computus that [dateutil.easter.easter] runs.
    - [ICal] holds the event and calendar containers of the [icalendar]
      package, reduced to the properties the generator sets.
    - [Generator] is [generator.py] itself: [Work], [Holiday],
      [FixedHoliday], the [Calendar] methods and [generate].

    Exceptions are values of [exn] on the left of a sum.  The only source of
    non-determinism, [uuid.uuid1()], is an oracle [nat -> UUID] read through a
    counter that is threaded by the monad [M]. *)

From Stdlib Require Import ZArith List String Bool Lia Sorted.
Import ListNotations.
Open Scope string_scope.
Open Scope list_scope.
Open Scope Z_scope.

(* ------------------------------------------------------------------ *)
(** ** Python's [datetime.date] *)

(** Modelled from the spec: the underlying date library, which is not part
    of the repository.  The definitions follow the pure-Python [datetime]
    module: proleptic Gregorian ordinals with 1 January of year 1 as day 1,
    and years restricted to [MINYEAR..MAXYEAR]. *)
Module PyDate.

Inductive exn : Type :=
| ValueError
| OverflowError.

Definition MINYEAR : Z := 1.
Definition MAXYEAR : Z := 9999.
Definition _MAXORDINAL : Z := 3652059.

Definition _DAYS_IN_MONTH : list Z :=
  [-1; 31; 28; 31; 30; 31; 30; 31; 31; 30; 31; 30; 31].

Definition _DAYS_BEFORE_MONTH : list Z :=
  [-1; 0; 31; 59; 90; 120; 151; 181; 212; 243; 273; 304; 334].

(** List indexing [l[i]] for the non-negative indices the module uses. *)
Definition index (l : list Z) (i : Z) : Z := nth (Z.to_nat i) l 0.

(** Python adds booleans to integers as 0 and 1. *)
Definition b2z (b : bool) : Z := if b then 1 else 0.

Definition _is_leap (year : Z) : bool :=
  (year mod 4 =? 0) && (negb (year mod 100 =? 0) || (year mod 400 =? 0)).

Definition _days_before_year (year : Z) : Z :=
  let y := year - 1 in
  y * 365 + y / 4 - y / 100 + y / 400.

Definition _days_in_month (year month : Z) : Z :=
  if (month =? 2) && _is_leap year then 29 else index _DAYS_IN_MONTH month.

Definition _days_before_month (year month : Z) : Z :=
  index _DAYS_BEFORE_MONTH month + b2z ((2 <? month) && _is_leap year).

Definition _ymd2ord (year month day : Z) : Z :=
  _days_before_year year + _days_before_month year month + day.

Definition _DI400Y : Z := Eval cbv in _days_before_year 401.
Definition _DI100Y : Z := Eval cbv in _days_before_year 101.
Definition _DI4Y : Z := Eval cbv in _days_before_year 5.

Definition _ord2ymd (n : Z) : Z * Z * Z :=
  let n := n - 1 in
  let n400 := n / _DI400Y in
  let n := n mod _DI400Y in
  let year := n400 * 400 + 1 in
  let n100 := n / _DI100Y in
  let n := n mod _DI100Y in
  let n4 := n / _DI4Y in
  let n := n mod _DI4Y in
  let n1 := n / 365 in
  let n := n mod 365 in
  let year := year + (n100 * 100 + n4 * 4 + n1) in
  if (n1 =? 4) || (n100 =? 4) then (year - 1, 12, 31)
  else
    let leapyear := (n1 =? 3) && (negb (n4 =? 24) || (n100 =? 3)) in
    let month := Z.shiftr (n + 50) 5 in
    let preceding :=
      index _DAYS_BEFORE_MONTH month + b2z ((2 <? month) && leapyear) in
    let '(month, preceding) :=
      if n <? preceding
      then (month - 1,
            preceding
            - (index _DAYS_IN_MONTH (month - 1)
               + b2z ((month - 1 =? 2) && leapyear)))
      else (month, preceding) in
    let n := n - preceding in
    (year, month, n + 1).

(** A [date] object: the three fields that [date.__new__] stores. *)
Record date : Type := mkdate { year : Z; month : Z; day : Z }.

(** [_check_date_fields]: the range checks run by [date(year, month, day)]. *)
Definition _check_date_fields (y m d : Z) : exn + (Z * Z * Z) :=
  if negb ((MINYEAR <=? y) && (y <=? MAXYEAR)) then inl ValueError
  else if negb ((1 <=? m) && (m <=? 12)) then inl ValueError
  else
    let dim := _days_in_month y m in
    if negb ((1 <=? d) && (d <=? dim)) then inl ValueError
    else inr (y, m, d).

(** Modelled from the spec: the constructor of the underlying date library,
    [datetime.date(year, month, day)], which is not part of the repository.
    It rejects a year outside the supported range [MINYEAR..MAXYEAR] and a
    month or day that does not exist. *)
Definition date_new (y m d : Z) : exn + date :=
  match _check_date_fields y m d with
  | inl e => inl e
  | inr (y, m, d) => inr (mkdate y m d)
  end.

Definition toordinal (self : date) : Z :=
  _ymd2ord (year self) (month self) (day self).

Definition fromordinal (n : Z) : exn + date :=
  let '(y, m, d) := _ord2ymd n in date_new y m d.

(** [weekday]: Monday is 0 and Sunday is 6. *)
Definition weekday (self : date) : Z := (toordinal self + 6) mod 7.

(** A [timedelta] is used by the generator only through its day count. *)
Record timedelta : Type := mktimedelta { days : Z }.

(** [timedelta(days=d, weeks=w)]. *)
Definition timedelta_new (d w : Z) : timedelta := mktimedelta (d + w * 7).

(** Modelled from the spec: [date.__add__] of the underlying date library;
    the result is the date that many days later, and a result outside the
    supported range is an [OverflowError]. *)
Definition date_add (self : date) (other : timedelta) : exn + date :=
  let o := toordinal self + days other in
  if (0 <? o) && (o <=? _MAXORDINAL) then fromordinal o
  else inl OverflowError.

(** [date.__sub__] with a [timedelta] on the right. *)
Definition date_sub (self : date) (other : timedelta) : exn + date :=
  date_add self (mktimedelta (- days other)).

End PyDate.

Import PyDate.

(* ------------------------------------------------------------------ *)
(** ** [dateutil.easter.easter] *)

(** Modelled from the spec: [easter_date(year)], the standard ecclesiastical
    Easter computation that the generator delegates to
    [dateutil.easter.easter]; the library is not part of the repository.
    This is the library's default method (the revised Gregorian computus):
    [g] is the golden number minus one, [c] the century, [i] the number of
    days from 21 March to the paschal full moon, [j] the weekday of that full
    moon and [p] the number of days from 21 March to the Sunday on or before
    it. *)
Definition easter (year : Z) : exn + date :=
  let y := year in
  let g := y mod 19 in
  let e := 0 in
  let c := y / 100 in
  let h := (c - c / 4 - (8 * c + 13) / 25 + 19 * g + 15) mod 30 in
  let i := h - (h / 28) * (1 - (h / 28) * (29 / (h + 1)) * ((21 - g) / 11)) in
  let j := (y + y / 4 + i + 2 - c + c / 4) mod 7 in
  let p := i - j + e in
  let d := 1 + (p + 27 + (p + 6) / 40) mod 31 in
  let m := 3 + (p + 26) / 30 in
  date_new y m d.

(* ------------------------------------------------------------------ *)
(** ** The [icalendar] containers *)

Module ICal.

(** The result of [uuid.uuid1()], a 128-bit number. *)
Definition UUID : Type := Z.

Inductive vFrequency : Type :=
| SECONDLY | MINUTELY | HOURLY | DAILY | WEEKLY | MONTHLY | YEARLY.

Inductive vWeekday : Type := SU | MO | TU | WE | TH | FR | SA.

(** The values the generator stores in a [vRecur] dictionary. *)
Inductive rvalue : Type :=
| RFreq (f : vFrequency)
| RWeekday (d : vWeekday)
| RInt (n : Z)
| RTuple (l : list Z).

(** [vRecur] is a dictionary; insertion order is kept. *)
Definition vRecur : Type := list (string * rvalue).

Fixpoint setitem (r : vRecur) (k : string) (v : rvalue) : vRecur :=
  match r with
  | [] => [(k, v)]
  | (k', v') :: r' =>
      if String.eqb k' k then (k, v) :: r' else (k', v') :: setitem r' k v
  end.

Fixpoint getitem (r : vRecur) (k : string) : option rvalue :=
  match r with
  | [] => None
  | (k', v) :: r' => if String.eqb k' k then Some v else getitem r' k
  end.

(** An [Event] component with the properties the generator adds. *)
Record Event : Type := mkEvent {
  uid : UUID;
  transp : string;
  dtstart : date;
  summary : string;
  categories : option string;
  description : option string;
  rrule : option vRecur
}.

(** [event.add('rrule', rrule)] on an event that has no rule yet. *)
Definition add_rrule (e : Event) (r : vRecur) : Event :=
  mkEvent (uid e) (transp e) (dtstart e) (summary e)
          (categories e) (description e) (Some r).

(** A calendar component: its properties and its sub-components. *)
Record Calendar : Type := mkCalendar {
  properties : list (string * string);
  subcomponents : list Event
}.

Definition Calendar_new : Calendar := mkCalendar [] [].

Definition add (self : Calendar) (name value : string) : Calendar :=
  mkCalendar (properties self ++ [(name, value)]) (subcomponents self).

Definition add_component (self : Calendar) (e : Event) : Calendar :=
  mkCalendar (properties self) (subcomponents self ++ [e]).

End ICal.

Import ICal.

(* ------------------------------------------------------------------ *)
(** ** Exceptions and the identifier source *)

(** A computation reads the number of identifiers drawn so far, and either
    raises or returns a value with the new count. *)
Definition M (A : Type) : Type := nat -> exn + (A * nat).

Definition ret {A : Type} (a : A) : M A := fun n => inr (a, n).

Definition bind {A B : Type} (m : M A) (k : A -> M B) : M B :=
  fun n =>
    match m n with
    | inl e => inl e
    | inr (a, n') => k a n'
    end.

(** Evaluation of an expression that may raise. *)
Definition lift {A : Type} (r : exn + A) : M A :=
  fun n =>
    match r with
    | inl e => inl e
    | inr a => inr (a, n)
    end.

Notation "x <- m ;; k" := (bind m (fun x => k))
  (at level 61, m at next level, right associativity).

(** [for i in range(count)] over a value that the body updates. *)
Definition range (count : Z) : list Z :=
  map Z.of_nat (seq 0 (Z.to_nat count)).

Fixpoint for_each {A : Type} (l : list Z) (body : A -> Z -> M A) (a : A)
  : M A :=
  match l with
  | [] => ret a
  | i :: l' => a' <- body a i ;; for_each l' body a'
  end.

(* ------------------------------------------------------------------ *)
(** ** [generator.py] *)

Module Generator.

Inductive Work : Type := FREE | DEFACTO | DEPENDS.

(** The properties [Holiday.__init__] adds to the fresh event, given the
    identifier drawn for it. *)
Definition Holiday_fields (u : UUID) (dtstart : date) (summary : string)
    (work : Work) : Event :=
  mkEvent u "TRANSPARENT" dtstart summary
    (match work with
     | DEPENDS => Some "Ledighet enligt avtal"
     | _ => None
     end)
    (match work with
     | DEPENDS =>
         Some "Denna dag har inte lagstadgad ställning som arbetsfri dag. Många arbetsplatser har ändå förkortad arbetstid enligt kollektivavtal eller lokala avtal."
     | DEFACTO =>
         Some "Denna dag räknas som söndag enligt 3 a § i Semesterlagen och är därmed arbetsfri."
     | FREE => None
     end)
    None.

Section WithUuidSource.

(** [uuid_source k] is what the [k]-th call of [uuid.uuid1()] returns. *)
Variable uuid_source : nat -> UUID.

Definition uuid1 : M UUID := fun n => inr (uuid_source n, S n).

Definition Holiday (dtstart : date) (summary : string) (work : Work)
  : M Event :=
  u <- uuid1 ;;
  ret (Holiday_fields u dtstart summary work).

Definition FixedHoliday (dtstart : date) (summary : string) (work : Work)
  : M Event :=
  e <- Holiday dtstart summary work ;;
  let rrule := [] in
  let rrule := setitem rrule "FREQ" (RFreq YEARLY) in
  ret (add_rrule e rrule).

Definition add_easter (self : Calendar) (year : Z) : M Calendar :=
  easter <- lift (easter year) ;;
  d <- lift (date_sub easter (timedelta_new 3 0)) ;;
  e <- Holiday d "Skärtorsdagen" DEPENDS ;;
  let self := add_component self e in
  d <- lift (date_sub easter (timedelta_new 2 0)) ;;
  e <- Holiday d "Långfredagen" FREE ;;
  let self := add_component self e in
  d <- lift (date_sub easter (timedelta_new 1 0)) ;;
  e <- Holiday d "Påskafton" FREE ;;
  let self := add_component self e in
  e <- Holiday easter "Påskdagen" FREE ;;
  let self := add_component self e in
  d <- lift (date_add easter (timedelta_new 1 0)) ;;
  e <- Holiday d "Annandag påsk" FREE ;;
  let self := add_component self e in
  d <- lift (date_add easter (timedelta_new 4 5)) ;;
  e <- Holiday d "Kristi himmelsfärdsdag" FREE ;;
  let self := add_component self e in
  d <- lift (date_add easter (timedelta_new 6 6)) ;;
  e <- Holiday d "Pingstafton" FREE ;;
  let self := add_component self e in
  d <- lift (date_add easter (timedelta_new 0 7)) ;;
  e <- Holiday d "Pingstdagen" FREE ;;
  let self := add_component self e in
  ret self.

Definition add_midsummers_eve (self : Calendar) (year : Z) : M Calendar :=
  d <- lift (date_new year 1 1) ;;
  event <- Holiday d "Midsommarafton" DEFACTO ;;
  let rrule := [] in
  let rrule := setitem rrule "FREQ" (RFreq YEARLY) in
  let rrule := setitem rrule "BYDAY" (RWeekday FR) in
  let rrule := setitem rrule "BYMONTHDAY" (RTuple [19; 20; 21; 22; 23; 24; 25]) in
  let rrule := setitem rrule "BYMONTH" (RInt 6) in
  let event := add_rrule event rrule in
  ret (add_component self event).

Definition add_midsummer_day (self : Calendar) (year : Z) : M Calendar :=
  d <- lift (date_new year 1 1) ;;
  event <- Holiday d "Midsommardagen" FREE ;;
  let rrule := [] in
  let rrule := setitem rrule "FREQ" (RFreq YEARLY) in
  let rrule := setitem rrule "BYDAY" (RWeekday SA) in
  let rrule := setitem rrule "BYMONTHDAY" (RTuple [20; 21; 22; 23; 24; 25; 26]) in
  let rrule := setitem rrule "BYMONTH" (RInt 6) in
  let event := add_rrule event rrule in
  ret (add_component self event).

Definition add_all_saints_eve (self : Calendar) (year : Z) : M Calendar :=
  d <- lift (date_new year 1 1) ;;
  event <- Holiday d "Allhelgonaafton" DEPENDS ;;
  let rrule := [] in
  let rrule := setitem rrule "FREQ" (RFreq YEARLY) in
  let rrule := setitem rrule "BYDAY" (RWeekday FR) in
  let rrule := setitem rrule "BYMONTHDAY" (RTuple [30; 31; 1; 2; 3; 4; 5]) in
  let rrule := setitem rrule "BYMONTH" (RTuple [10; 11]) in
  let event := add_rrule event rrule in
  ret (add_component self event).

Definition add_all_saints_day (self : Calendar) (year : Z) : M Calendar :=
  d <- lift (date_new year 1 1) ;;
  event <- Holiday d "Alla helgons dag" FREE ;;
  let rrule := [] in
  let rrule := setitem rrule "FREQ" (RFreq YEARLY) in
  let rrule := setitem rrule "BYDAY" (RWeekday SA) in
  let rrule := setitem rrule "BYMONTHDAY" (RTuple [31; 1; 2; 3; 4; 5; 6]) in
  let rrule := setitem rrule "BYMONTH" (RTuple [10; 11]) in
  let event := add_rrule event rrule in
  ret (add_component self event).

(** [calendar.add_component(FixedHoliday(date(y, m, d), summary, work))]. *)
Definition add_fixed (calendar : Calendar) (y m d : Z) (summary : string)
    (work : Work) : M Calendar :=
  dt <- lift (date_new y m d) ;;
  e <- FixedHoliday dt summary work ;;
  ret (add_component calendar e).

Definition generate (start_year count : Z) : M Calendar :=
  let calendar := Calendar_new in
  let calendar :=
    add calendar "prodid" "-//Mozilla.org/NONSGML Mozilla Calendar V1.1//" in
  let calendar := add calendar "version" "2.0" in
  calendar <- add_fixed calendar start_year 1 1 "Nyårsdagen" FREE ;;
  calendar <- add_fixed calendar start_year 1 5 "Trettondagsafton" DEPENDS ;;
  calendar <- add_fixed calendar start_year 1 6 "Trettondedag jul" FREE ;;
  calendar <- for_each (range count)
                (fun calendar i => add_easter calendar (start_year + i))
                calendar ;;
  calendar <- add_fixed calendar start_year 4 30 "Valborgsmässoafton" DEPENDS ;;
  calendar <- add_fixed calendar start_year 5 1 "Första maj" FREE ;;
  calendar <- add_fixed calendar start_year 6 6 "Sveriges nationaldag" FREE ;;
  calendar <- add_midsummers_eve calendar start_year ;;
  calendar <- add_midsummer_day calendar start_year ;;
  calendar <- add_all_saints_eve calendar start_year ;;
  calendar <- add_all_saints_day calendar start_year ;;
  calendar <- add_fixed calendar start_year 12 24 "Julafton" DEFACTO ;;
  calendar <- add_fixed calendar start_year 12 25 "Juldagen" FREE ;;
  calendar <- add_fixed calendar start_year 12 26 "Annandag jul" FREE ;;
  calendar <- add_fixed calendar start_year 12 31 "Nyårsafton" DEFACTO ;;
  ret calendar.

End WithUuidSource.

End Generator.

Import Generator.


(* ------------------------------------------------------------------ *)
(** ** Vocabulary of the specification *)

(** The three shapes of recurrence an event of the document can have. *)
Inductive Kind : Type := NonRecurring | FixedYearly | WeekdayWindow.

Definition Kind_eqb (a b : Kind) : bool :=
  match a, b with
  | NonRecurring, NonRecurring => true
  | FixedYearly, FixedYearly => true
  | WeekdayWindow, WeekdayWindow => true
  | _, _ => false
  end.

(** An event without a rule is a single instance; a rule with a [BYDAY] part
    is a weekday window; any other rule recurs on the anchor's month and day. *)
Definition kind_of (e : Event) : Kind :=
  match rrule e with
  | None => NonRecurring
  | Some r =>
      match getitem r "BYDAY" with
      | Some _ => WeekdayWindow
      | None => FixedYearly
      end
  end.

Definition has_kind (k : Kind) (e : Event) : bool := Kind_eqb (kind_of e) k.

(** Everything an event carries except its unique identifier. *)
Definition content (e : Event)
  : string * date * string * option string * option string * option vRecur :=
  (transp e, dtstart e, summary e, categories e, description e, rrule e).

(** The rule [FixedHoliday.__init__] builds. *)
Definition yearly : vRecur := [("FREQ", RFreq YEARLY)].

Definition window_rule (wd : vWeekday) (monthdays : list Z) (months : rvalue)
  : vRecur :=
  [("FREQ", RFreq YEARLY); ("BYDAY", RWeekday wd);
   ("BYMONTHDAY", RTuple monthdays); ("BYMONTH", months)].

(** The integers of a rule part, whether it was set to one integer or to a
    tuple of them. *)
Definition ints_of (v : rvalue) : list Z :=
  match v with
  | RInt n => [n]
  | RTuple l => l
  | _ => []
  end.

(** A date the constructor accepts. *)
Definition valid_date (D : date) : Prop :=
  MINYEAR <= year D <= MAXYEAR /\ 1 <= month D <= 12
  /\ 1 <= day D <= _days_in_month (year D) (month D).

(** The second half of [_ord2ymd]: month and day from the offset in the
    year. *)
Definition month_day (leapyear : bool) (n : Z) : Z * Z :=
  let month := Z.shiftr (n + 50) 5 in
  let preceding :=
    index _DAYS_BEFORE_MONTH month + b2z ((2 <? month) && leapyear) in
  let '(month, preceding) :=
    if n <? preceding
    then (month - 1,
          preceding
          - (index _DAYS_IN_MONTH (month - 1)
             + b2z ((month - 1 =? 2) && leapyear)))
    else (month, preceding) in
  (month, n - preceding + 1).

(** The first half of [_ord2ymd] leaves four quotients and a remainder;
    this is what the function does with them. *)
Definition ord2ymd_from (n400 n100 n4 n1 n : Z) : Z * Z * Z :=
  let year := n400 * 400 + 1 + (n100 * 100 + n4 * 4 + n1) in
  if (n1 =? 4) || (n100 =? 4) then (year - 1, 12, 31)
  else
    let leapyear := (n1 =? 3) && (negb (n4 =? 24) || (n100 =? 3)) in
    let '(m, d) := month_day leapyear n in (year, m, d).

Definition valid_md (leapyear : bool) (m d : Z) : bool :=
  (1 <=? m) && (m <=? 12) && (1 <=? d)
  && (d <=? (if (m =? 2) && leapyear then 29 else index _DAYS_IN_MONTH m)).

(** Days between 1 January and the given month and day. *)
Definition offset_in_year (leapyear : bool) (m d : Z) : Z :=
  index _DAYS_BEFORE_MONTH m + b2z ((2 <? m) && leapyear) + d - 1.

(** Executable check that [month_day] inverts [offset_in_year] at one month
    and day, and that only 31 December reaches offset 365. *)
Definition month_day_ok (leapyear : bool) (m d : Z) : bool :=
  negb (valid_md leapyear m d)
  || (let '(m', d') := month_day leapyear (offset_in_year leapyear m d) in
      (m' =? m) && (d' =? d)
      && (0 <=? offset_in_year leapyear m d)
      && (offset_in_year leapyear m d <=? 364 + b2z leapyear))
     && (negb (offset_in_year leapyear m d =? 365)
         || ((m =? 12) && (d =? 31))).

(** Day [p] of March, continued through April, May and June:
    [spring_date y 32] is 1 April. *)
Definition spring_date (y p : Z) : date :=
  if p <=? 31 then mkdate y 3 p
  else if p <=? 61 then mkdate y 4 (p - 31)
  else if p <=? 92 then mkdate y 5 (p - 61)
  else mkdate y 6 (p - 92).

(** The inverse numbering for a date of March or April. *)
Definition march_day (D : date) : Z :=
  if month D =? 3 then day D else day D + 31.

(** The date [k] days after [E]; [E] itself where the library would raise. *)
Definition plus_days (E : date) (k : Z) : date :=
  match date_add E (mktimedelta k) with
  | inr d => d
  | inl _ => E
  end.

(** Executable check of one year: Easter exists in that year and is a Sunday
    between 22 March and 25 April. *)
Definition easter_year_ok (y : Z) : bool :=
  match easter y with
  | inl _ => false
  | inr E =>
      (year E =? y) && (weekday E =? 6)
      && (((month E =? 3) && (22 <=? day E) && (day E <=? 31))
          || ((month E =? 4) && (1 <=? day E) && (day E <=? 25)))
  end.

(** What the check of a year says about its Easter date. *)
Definition easter_sunday_of (y : Z) (E : date) : Prop :=
  easter y = inr E /\ year E = y /\ weekday E = 6
  /\ (month E = 3 /\ 22 <= day E <= 31 \/ month E = 4 /\ 1 <= day E <= 25).

(** [len] consecutive integers from [lo]. *)
Fixpoint zrange (lo : Z) (len : nat) : list Z :=
  match len with
  | O => []
  | S len' => lo :: zrange (lo + 1) len'
  end.

Definition supported_years : list Z :=
  zrange MINYEAR (Z.to_nat (MAXYEAR + 1 - MINYEAR)).

(** The eight events [add_easter] appends for [y], the first of them with
    identifier number [n]. *)
Definition easter_block (src : nat -> UUID) (n : nat) (y : Z) : list Event :=
  match easter y with
  | inl _ => []
  | inr E =>
      [Holiday_fields (src n) (plus_days E (-3)) "Skärtorsdagen" DEPENDS;
       Holiday_fields (src (1 + n)%nat) (plus_days E (-2)) "Långfredagen" FREE;
       Holiday_fields (src (2 + n)%nat) (plus_days E (-1)) "Påskafton" FREE;
       Holiday_fields (src (3 + n)%nat) E "Påskdagen" FREE;
       Holiday_fields (src (4 + n)%nat) (plus_days E 1) "Annandag påsk" FREE;
       Holiday_fields (src (5 + n)%nat) (plus_days E 39)
         "Kristi himmelsfärdsdag" FREE;
       Holiday_fields (src (6 + n)%nat) (plus_days E 48) "Pingstafton" FREE;
       Holiday_fields (src (7 + n)%nat) (plus_days E 49) "Pingstdagen" FREE]
  end.

Fixpoint easter_blocks (src : nat -> UUID) (n : nat) (y : Z) (c : nat)
  : list Event :=
  match c with
  | O => []
  | S c' => easter_block src n y ++ easter_blocks src (8 + n) (y + 1) c'
  end.

Definition fixed_event (u : UUID) (y m d : Z) (s : string) (w : Work) : Event :=
  add_rrule (Holiday_fields u (mkdate y m d) s w) yearly.

Definition window_event (u : UUID) (y : Z) (s : string) (w : Work)
    (r : vRecur) : Event :=
  add_rrule (Holiday_fields u (mkdate y 1 1) s w) r.

(** The events of a successful run for [c] years from [sy], when [n]
    identifiers were drawn before it. *)
Definition expected_events (src : nat -> UUID) (n : nat) (sy : Z) (c : nat)
  : list Event :=
  let m := (8 * c + (3 + n))%nat in
  [fixed_event (src n) sy 1 1 "Nyårsdagen" FREE;
   fixed_event (src (1 + n)%nat) sy 1 5 "Trettondagsafton" DEPENDS;
   fixed_event (src (2 + n)%nat) sy 1 6 "Trettondedag jul" FREE]
  ++ easter_blocks src (3 + n) sy c
  ++ [fixed_event (src m) sy 4 30 "Valborgsmässoafton" DEPENDS;
      fixed_event (src (1 + m)%nat) sy 5 1 "Första maj" FREE;
      fixed_event (src (2 + m)%nat) sy 6 6 "Sveriges nationaldag" FREE;
      window_event (src (3 + m)%nat) sy "Midsommarafton" DEFACTO
        (window_rule FR [19; 20; 21; 22; 23; 24; 25] (RInt 6));
      window_event (src (4 + m)%nat) sy "Midsommardagen" FREE
        (window_rule SA [20; 21; 22; 23; 24; 25; 26] (RInt 6));
      window_event (src (5 + m)%nat) sy "Allhelgonaafton" DEPENDS
        (window_rule FR [30; 31; 1; 2; 3; 4; 5] (RTuple [10; 11]));
      window_event (src (6 + m)%nat) sy "Alla helgons dag" FREE
        (window_rule SA [31; 1; 2; 3; 4; 5; 6] (RTuple [10; 11]));
      fixed_event (src (7 + m)%nat) sy 12 24 "Julafton" DEFACTO;
      fixed_event (src (8 + m)%nat) sy 12 25 "Juldagen" FREE;
      fixed_event (src (9 + m)%nat) sy 12 26 "Annandag jul" FREE;
      fixed_event (src (10 + m)%nat) sy 12 31 "Nyårsafton" DEFACTO].

(** Name and kind of the eight events of one year, in the order
    [add_easter] appends them. *)
Definition easter_listing : list (string * Kind) :=
  [("Skärtorsdagen", NonRecurring); ("Långfredagen", NonRecurring);
   ("Påskafton", NonRecurring); ("Påskdagen", NonRecurring);
   ("Annandag påsk", NonRecurring); ("Kristi himmelsfärdsdag", NonRecurring);
   ("Pingstafton", NonRecurring); ("Pingstdagen", NonRecurring)].

Definition listing (e : Event) : string * Kind := (summary e, kind_of e).

(** The order of the specification's listing: every Easter-relative event,
    then every fixed-date event, then every weekday-window event. *)
Definition in_listing_order (events : list Event) : Prop :=
  events
  = filter (has_kind NonRecurring) events
    ++ filter (has_kind FixedYearly) events
    ++ filter (has_kind WeekdayWindow) events.

(** Two calls of [generate], one after the other, drawing identifiers from
    the same source. *)
Definition generate_twice (src : nat -> UUID) (start_year count : Z)
  : M (Calendar * Calendar) :=
  first <- generate src start_year count ;;
  second <- generate src start_year count ;;
  ret (first, second).

(** The parts of a recurrence rule. *)
Definition rule_weekdays (r : vRecur) : list vWeekday :=
  match getitem r "BYDAY" with
  | Some (RWeekday d) => [d]
  | _ => []
  end.

Definition rule_monthdays (r : vRecur) : list Z :=
  match getitem r "BYMONTHDAY" with
  | Some v => ints_of v
  | None => []
  end.

Definition rule_months (r : vRecur) : list Z :=
  match getitem r "BYMONTH" with
  | Some v => ints_of v
  | None => []
  end.

(** The dates a rule's candidates stand for in year [y]: the first candidate
    in the first target month, and the days after it, one for each further
    candidate. *)
Definition window_dates (y : Z) (r : vRecur) : list (exn + date) :=
  match date_new y (hd 0 (rule_months r)) (hd 0 (rule_monthdays r)) with
  | inl e => [inl e]
  | inr d0 =>
      map (fun k => date_add d0 (mktimedelta (Z.of_nat k)))
        (seq 0 (List.length (rule_monthdays r)))
  end.

(** The candidates are the month days of consecutive calendar days that lie
    in the target months. *)
Definition consecutive_days (y : Z) (r : vRecur) : Prop :=
  exists ds,
    window_dates y r = map inr ds
    /\ map day ds = rule_monthdays r
    /\ Forall (fun d => In (month d) (rule_months r)) ds.

(** Two of those days lie in different months. *)
Definition spans_month_boundary (y : Z) (r : vRecur) : Prop :=
  exists ds,
    window_dates y r = map inr ds
    /\ exists d d', In d ds /\ In d' ds /\ month d <> month d'.

(** What holds of every weekday-window rule of the generator: one weekday,
    seven candidates that are consecutive calendar days of the target months
    in every supported year, one or two target months, and a month boundary
    among the candidates exactly when there are two target months. *)
Definition window_invariant (r : vRecur) : Prop :=
  List.length (rule_weekdays r) = 1%nat
  /\ List.length (rule_monthdays r) = 7%nat
  /\ (List.length (rule_months r) = 1%nat
      \/ List.length (rule_months r) = 2%nat)
  /\ forall y, MINYEAR <= y <= MAXYEAR ->
       consecutive_days y r
       /\ (spans_month_boundary y r <-> List.length (rule_months r) = 2%nat).

(** Whether an event carries a category tag and a descriptive note. *)
Definition has_category (e : Event) : bool :=
  match categories e with Some _ => true | None => false end.

Definition has_description (e : Event) : bool :=
  match description e with Some _ => true | None => false end.

(** The annotations of an event are those [Holiday.__init__] attaches for
    some work status, given the event's other properties. *)
Definition annotated_by_status (e : Event) : Prop :=
  exists w,
    categories e
    = categories (Holiday_fields (uid e) (dtstart e) (summary e) w)
    /\ description e
       = description (Holiday_fields (uid e) (dtstart e) (summary e) w)
    /\ transp e = "TRANSPARENT"
    /\ (has_category e, has_description e)
       = match w with
         | DEPENDS => (true, true)
         | DEFACTO => (false, true)
         | FREE => (false, false)
         end.

Definition document_properties : list (string * string) :=
  [("prodid", "-//Mozilla.org/NONSGML Mozilla Calendar V1.1//");
   ("version", "2.0")].

(** The years a run touches are all supported by the date library. *)
Definition supported (sy count : Z) : Prop :=
  MINYEAR <= sy <= MAXYEAR /\ sy + Z.max 0 count <= MAXYEAR + 1.

(** An identifier source that never repeats itself. *)
Definition counting_source : nat -> UUID := fun k => Z.of_nat k.

(** Name and weekday (Monday is 0, Sunday 6, as [date.weekday] counts) of
    the eight events of one year. *)
Definition easter_weekdays : list (string * Z) :=
  [("Skärtorsdagen", 3); ("Långfredagen", 4); ("Påskafton", 5);
   ("Påskdagen", 6); ("Annandag påsk", 0); ("Kristi himmelsfärdsdag", 3);
   ("Pingstafton", 5); ("Pingstdagen", 6)].

(** The number [date.weekday] gives the day a [vWeekday] names. *)
Definition weekday_number (d : vWeekday) : Z :=
  match d with
  | MO => 0 | TU => 1 | WE => 2 | TH => 3 | FR => 4 | SA => 5 | SU => 6
  end.

(** A date satisfies the parts of a rule when its weekday is the rule's
    [BYDAY], its day of the month is among [BYMONTHDAY] and its month among
    [BYMONTH]. *)
Definition satisfies (r : vRecur) (d : date) : Prop :=
  In (weekday d) (map weekday_number (rule_weekdays r))
  /\ In (day d) (rule_monthdays r)
  /\ In (month d) (rule_months r).

(** Earlier in the calendar. *)
Definition anchored_before (a b : Event) : Prop :=
  toordinal (dtstart a) < toordinal (dtstart b).

(* ------------------------------------------------------------------ *)
(** ** The date library on the supported range *)

Ltac tables :=
  repeat match goal with
  | |- context [index ?l ?i] =>
      let v := eval vm_compute in (index l i) in
      lazymatch v with
      | Z0 => idtac | Zpos _ => idtac | Zneg _ => idtac
      end;
      change (index l i) with v
  | H : context [index ?l ?i] |- _ =>
      let v := eval vm_compute in (index l i) in
      lazymatch v with
      | Z0 => idtac | Zpos _ => idtac | Zneg _ => idtac
      end;
      change (index l i) with v in H
  end.

Ltac bools :=
  repeat match goal with
  | H : _ && _ = true |- _ => apply andb_true_iff in H; destruct H
  | H : (_ =? _) = true |- _ => apply Z.eqb_eq in H
  | H : (_ <=? _) = true |- _ => apply Z.leb_le in H
  | H : (_ <? _) = true |- _ => apply Z.ltb_lt in H
  end.

Section DateFacts.

Lemma date_new_ok (y m d : Z) :
  MINYEAR <= y <= MAXYEAR -> 1 <= m <= 12 -> 1 <= d <= _days_in_month y m ->
  date_new y m d = inr (mkdate y m d).
Proof.
  intros Hy Hm Hd. unfold date_new, _check_date_fields.
  replace ((MINYEAR <=? y) && (y <=? MAXYEAR)) with true
    by (symmetry; apply andb_true_iff; split; apply Z.leb_le; lia).
  replace ((1 <=? m) && (m <=? 12)) with true
    by (symmetry; apply andb_true_iff; split; apply Z.leb_le; lia).
  replace ((1 <=? d) && (d <=? _days_in_month y m)) with true
    by (symmetry; apply andb_true_iff; split; apply Z.leb_le; lia).
  reflexivity.
Qed.

Lemma days_in_month_not_february (y m : Z) :
  m <> 2 -> _days_in_month y m = index _DAYS_IN_MONTH m.
Proof.
  intros Hm. unfold _days_in_month.
  destruct (Z.eqb_spec m 2); [contradiction | reflexivity].
Qed.

Lemma date_new_unsupported_year (y m d : Z) :
  ~ (MINYEAR <= y <= MAXYEAR) -> date_new y m d = inl ValueError.
Proof.
  intros Hy. unfold date_new, _check_date_fields.
  destruct ((MINYEAR <=? y) && (y <=? MAXYEAR)) eqn:E; [|reflexivity].
  bools. lia.
Qed.

Lemma easter_unsupported_year (y : Z) :
  ~ (MINYEAR <= y <= MAXYEAR) -> easter y = inl ValueError.
Proof.
  intros Hy. unfold easter. cbv zeta. now apply date_new_unsupported_year.
Qed.

Lemma zrange_forallb (f : Z -> bool) (len : nat) :
  forall lo, forallb f (zrange lo len) = true ->
  forall y, lo <= y < lo + Z.of_nat len -> f y = true.
Proof.
  induction len as [|len IH]; intros lo H y Hy.
  - lia.
  - cbn [zrange forallb] in H. apply andb_true_iff in H. destruct H as [H0 H1].
    destruct (Z.eq_dec y lo) as [->|Hne]; [assumption|].
    apply (IH (lo + 1) H1). lia.
Qed.

(** *** Years as 400-, 100-, 4- and 1-year cycles *)

Lemma year_digits (Y : Z) :
  0 <= Y ->
  exists a b c e, Y = 400 * a + 100 * b + 4 * c + e
    /\ 0 <= a /\ 0 <= b < 4 /\ 0 <= c < 25 /\ 0 <= e < 4.
Proof.
  intros HY.
  exists (Y / 400), (Y mod 400 / 100), (Y mod 100 / 4), (Y mod 4).
  Z.to_euclidean_division_equations; lia.
Qed.

Lemma days_before_year_digits (a b c e : Z) :
  0 <= a -> 0 <= b < 4 -> 0 <= c < 25 -> 0 <= e < 4 ->
  _days_before_year (400 * a + 100 * b + 4 * c + e + 1)
  = 146097 * a + 36524 * b + 1461 * c + 365 * e.
Proof.
  intros Ha Hb Hc He. unfold _days_before_year. cbv zeta.
  Z.to_euclidean_division_equations; lia.
Qed.

Lemma is_leap_digits (a b c e : Z) :
  0 <= a -> 0 <= b < 4 -> 0 <= c < 25 -> 0 <= e < 4 ->
  _is_leap (400 * a + 100 * b + 4 * c + e + 1)
  = (e =? 3) && (negb (c =? 24) || (b =? 3)).
Proof.
  intros Ha Hb Hc He. unfold _is_leap.
  destruct (Z.eqb_spec e 3), (Z.eqb_spec c 24), (Z.eqb_spec b 3);
    cbn [andb orb negb];
    repeat match goal with
    | |- context [?x =? ?y] => destruct (Z.eqb_spec x y); cbn [andb orb negb]
    end; try reflexivity; exfalso; Z.to_euclidean_division_equations; lia.
Qed.

Lemma divmod_step (d q r : Z) :
  0 <= r < d -> (d * q + r) / d = q /\ (d * q + r) mod d = r.
Proof.
  intros Hr. split.
  - symmetry. apply (Z.div_unique _ d q r); [left; exact Hr | reflexivity].
  - symmetry. apply (Z.mod_unique _ d q r); [left; exact Hr | reflexivity].
Qed.

Lemma split_ordinal (a b c e doy : Z) :
  0 <= b < 4 -> 0 <= c < 25 -> 0 <= e < 4 -> 0 <= doy <= 364 ->
  let n0 := 146097 * a + 36524 * b + 1461 * c + 365 * e + doy in
  n0 / _DI400Y = a
  /\ n0 mod _DI400Y / _DI100Y = b
  /\ (n0 mod _DI400Y) mod _DI100Y / _DI4Y = c
  /\ ((n0 mod _DI400Y) mod _DI100Y) mod _DI4Y / 365 = e
  /\ ((n0 mod _DI400Y) mod _DI100Y) mod _DI4Y mod 365 = doy.
Proof.
  intros Hb Hc He Hd n0. subst n0. unfold _DI400Y, _DI100Y, _DI4Y.
  replace (146097 * a + 36524 * b + 1461 * c + 365 * e + doy)
    with (146097 * a + (36524 * b + (1461 * c + (365 * e + doy)))) by ring.
  destruct (divmod_step 146097 a (36524 * b + (1461 * c + (365 * e + doy))))
    as [-> ->]; [lia|].
  destruct (divmod_step 36524 b (1461 * c + (365 * e + doy))) as [-> ->]; [lia|].
  destruct (divmod_step 1461 c (365 * e + doy)) as [-> ->]; [lia|].
  destruct (divmod_step 365 e doy) as [-> ->]; [lia|].
  repeat split; reflexivity.
Qed.

(** *** Months *)

Lemma _ord2ymd_stages (n : Z) :
  _ord2ymd n =
  let n0 := n - 1 in
  let r400 := n0 mod _DI400Y in
  let r100 := r400 mod _DI100Y in
  let r4 := r100 mod _DI4Y in
  ord2ymd_from (n0 / _DI400Y) (r400 / _DI100Y) (r100 / _DI4Y) (r4 / 365)
    (r4 mod 365).
Proof.
  unfold _ord2ymd, ord2ymd_from, month_day. cbv zeta.
  destruct ((_ =? 4) || (_ =? 4)); [reflexivity|].
  destruct (_ <? _); reflexivity.
Qed.

Lemma month_day_checked :
  forallb (fun leap =>
    forallb (fun m => forallb (month_day_ok leap m) (zrange 1 31))
      (zrange 1 12)) [true; false] = true.
Proof. vm_compute. reflexivity. Qed.

Lemma valid_md_bounds (leap : bool) (m d : Z) :
  valid_md leap m d = true -> 1 <= m <= 12 /\ 1 <= d <= 31.
Proof.
  unfold valid_md. intros Hv. bools.
  assert (Hc : m = 1 \/ m = 2 \/ m = 3 \/ m = 4 \/ m = 5 \/ m = 6 \/ m = 7
               \/ m = 8 \/ m = 9 \/ m = 10 \/ m = 11 \/ m = 12) by lia.
  destruct leap;
    repeat (destruct Hc as [->|Hc]; [tables; cbn in *; lia|]);
    subst; tables; cbn in *; lia.
Qed.

Lemma month_day_offset (leap : bool) (m d : Z) :
  valid_md leap m d = true ->
  month_day leap (offset_in_year leap m d) = (m, d)
  /\ 0 <= offset_in_year leap m d <= 364 + b2z leap
  /\ (offset_in_year leap m d = 365 -> m = 12 /\ d = 31).
Proof.
  intros Hv. destruct (valid_md_bounds _ _ _ Hv) as [Hm Hd].
  pose proof month_day_checked as H. cbn [forallb] in H.
  apply andb_true_iff in H. destruct H as [Ht H].
  apply andb_true_iff in H. destruct H as [Hf _].
  assert (Hok : month_day_ok leap m d = true).
  { destruct leap.
    - apply (zrange_forallb _ _ _ (zrange_forallb _ _ _ Ht m ltac:(lia)) d); lia.
    - apply (zrange_forallb _ _ _ (zrange_forallb _ _ _ Hf m ltac:(lia)) d); lia. }
  unfold month_day_ok in Hok. rewrite Hv in Hok. cbn [negb orb] in Hok.
  destruct (month_day leap (offset_in_year leap m d)) as [m' d'].
  apply andb_true_iff in Hok. destruct Hok as [Hok H365]. bools.
  subst m' d'. split; [reflexivity|]. split; [lia|].
  intros E. rewrite E in H365. cbn in H365. bools. lia.
Qed.

Lemma offset_in_year_ordinal (y m d : Z) :
  _ymd2ord y m d - 1
  = _days_before_year y + offset_in_year (_is_leap y) m d.
Proof. unfold _ymd2ord, _days_before_month, offset_in_year. ring. Qed.

Lemma valid_md_days_in_month (y m d : Z) :
  1 <= m <= 12 -> 1 <= d <= _days_in_month y m ->
  valid_md (_is_leap y) m d = true.
Proof.
  intros Hm Hd. unfold valid_md. fold (_days_in_month y m).
  repeat (apply andb_true_iff; split); apply Z.leb_le; lia.
Qed.

(** *** [_ord2ymd] inverts [_ymd2ord] *)

Lemma ord2ymd_ymd2ord (y m d : Z) :
  1 <= y -> 1 <= m <= 12 -> 1 <= d <= _days_in_month y m ->
  _ord2ymd (_ymd2ord y m d) = (y, m, d).
Proof.
  intros Hy Hm Hd.
  pose proof (valid_md_days_in_month y m d Hm Hd) as Hv.
  destruct (month_day_offset _ _ _ Hv) as (Hmd & Hoff & Hlast).
  rewrite _ord2ymd_stages. cbv zeta. rewrite offset_in_year_ordinal.
  destruct (year_digits (y - 1)) as (a & b & c & e & HY & Ha & Hb & Hc & He);
    [lia|].
  assert (Ey : y = 400 * a + 100 * b + 4 * c + e + 1) by lia.
  clear HY. subst y.
  rewrite days_before_year_digits by assumption.
  pose proof (is_leap_digits a b c e Ha Hb Hc He) as Hleap.
  set (leap := _is_leap _) in *.
  set (doy := offset_in_year leap m d) in *.
  destruct (Z.eq_dec doy 365) as [E365|N365].
  - (* 31 December of a leap year: one of the quotients is 4 *)
    destruct (Hlast E365) as [-> ->]. rewrite E365.
    assert (Hl : leap = true) by (destruct leap; [reflexivity | cbn in Hoff; lia]).
    rewrite Hl in Hleap. symmetry in Hleap.
    apply andb_true_iff in Hleap. destruct Hleap as [He3 Hcb].
    apply Z.eqb_eq in He3. subst e.
    unfold _DI400Y, _DI100Y, _DI4Y.
    destruct (Z.eqb_spec c 24) as [->|Hc24].
    + cbn [negb orb] in Hcb. apply Z.eqb_eq in Hcb. subst b.
      replace (146097 * a + 36524 * 3 + 1461 * 24 + 365 * 3 + 365)
        with (146097 * a + 146096) by ring.
      destruct (divmod_step 146097 a 146096) as [-> ->]; [lia|].
      unfold ord2ymd_from.
      change (146096 / 36524) with 4. change (146096 mod 36524) with 0.
      change (0 mod 1461) with 0. change (0 / 1461) with 0.
      change (0 / 365) with 0. change ((0 =? 4) || (4 =? 4)) with true.
      cbv iota. f_equal. f_equal. ring.
    + replace (146097 * a + 36524 * b + 1461 * c + 365 * 3 + 365)
        with (146097 * a + (36524 * b + (1461 * c + (365 * 4 + 0)))) by ring.
      destruct (divmod_step 146097 a (36524 * b + (1461 * c + (365 * 4 + 0))))
        as [-> ->]; [lia|].
      destruct (divmod_step 36524 b (1461 * c + (365 * 4 + 0))) as [-> ->];
        [lia|].
      destruct (divmod_step 1461 c (365 * 4 + 0)) as [-> ->]; [lia|].
      destruct (divmod_step 365 4 0) as [-> ->]; [lia|].
      unfold ord2ymd_from. change (4 =? 4) with true. cbn [orb].
      f_equal. f_equal. ring.
  - assert (Hd364 : 0 <= doy <= 364) by (destruct leap; cbn in Hoff; lia).
    destruct (split_ordinal a b c e doy Hb Hc He Hd364)
      as (-> & -> & -> & -> & ->).
    unfold ord2ymd_from. cbv zeta.
    replace ((e =? 4) || (b =? 4)) with false
      by (symmetry; apply orb_false_iff; split; apply Z.eqb_neq; lia).
    rewrite <- Hleap. rewrite Hmd. f_equal. f_equal. ring.
Qed.

(** *** Ordinals of supported dates *)

Lemma toordinal_bounds (D : date) :
  valid_date D -> 0 < toordinal D <= _MAXORDINAL.
Proof.
  intros (Hy & Hm & Hd). destruct D as [y m d]. cbn [year month day] in *.
  unfold MINYEAR, MAXYEAR in Hy.
  pose proof (valid_md_days_in_month y m d Hm Hd) as Hv.
  destruct (month_day_offset _ _ _ Hv) as (_ & Hoff & _).
  pose proof (offset_in_year_ordinal y m d) as Ho.
  unfold toordinal, _MAXORDINAL. cbn [year month day].
  destruct (Z.eq_dec y 9999) as [->|Hne].
  - change (_is_leap 9999) with false in *.
    change (_days_before_year 9999) with 3651694 in *. cbn [b2z] in Hoff. lia.
  - assert (0 <= _days_before_year y <= 3651329).
    { unfold _days_before_year. cbv zeta.
      Z.to_euclidean_division_equations; lia. }
    destruct (_is_leap y); cbn [b2z] in Hoff; lia.
Qed.

Lemma fromordinal_toordinal (D : date) :
  valid_date D -> fromordinal (toordinal D) = inr D.
Proof.
  intros HD. pose proof HD as (Hy & Hm & Hd). destruct D as [y m d].
  cbn [year month day] in *. unfold fromordinal, toordinal.
  cbn [year month day].
  rewrite ord2ymd_ymd2ord by (unfold MINYEAR in Hy; lia).
  now apply date_new_ok.
Qed.

(** Adding [k] days yields the supported date whose ordinal is [k] more. *)
Lemma date_add_to (D D' : date) (k : Z) :
  valid_date D' -> toordinal D' = toordinal D + k ->
  date_add D (mktimedelta k) = inr D'.
Proof.
  intros HD' Ho. unfold date_add. cbn [days]. rewrite <- Ho.
  pose proof (toordinal_bounds D' HD') as Hb.
  replace ((0 <? toordinal D') && (toordinal D' <=? _MAXORDINAL)) with true
    by (symmetry; apply andb_true_iff; split;
        [apply Z.ltb_lt | apply Z.leb_le]; lia).
  now apply fromordinal_toordinal.
Qed.

(** *** March to June *)

Lemma spring_date_facts (y p : Z) :
  MINYEAR <= y <= MAXYEAR -> 1 <= p <= 122 ->
  valid_date (spring_date y p)
  /\ year (spring_date y p) = y
  /\ toordinal (spring_date y p)
     = _days_before_year y + 59 + b2z (_is_leap y) + p.
Proof.
  intros Hy Hp. unfold spring_date, valid_date, toordinal, _ymd2ord,
    _days_before_month, _days_in_month.
  destruct (Z.leb_spec p 31); [|destruct (Z.leb_spec p 61);
    [|destruct (Z.leb_spec p 92)]]; cbn [year month day]; tables;
    cbn [Z.eqb Z.ltb Z.compare Pos.compare Pos.compare_cont Pos.eqb andb];
    repeat split; try lia.
Qed.

(** *** Easter *)

Lemma easter_years_checked : forallb easter_year_ok supported_years = true.
Proof. vm_compute. reflexivity. Qed.

Lemma easter_supported (y : Z) :
  MINYEAR <= y <= MAXYEAR -> exists E, easter_sunday_of y E.
Proof.
  intros Hy.
  assert (H : easter_year_ok y = true).
  { apply (zrange_forallb _ _ _ easter_years_checked).
    rewrite Z2Nat.id; unfold MINYEAR, MAXYEAR in *; lia. }
  unfold easter_year_ok in H. destruct (easter y) as [|E] eqn:HE;
    [discriminate|].
  exists E. unfold easter_sunday_of. rewrite HE.
  apply andb_true_iff in H. destruct H as [H Hmd].
  apply orb_true_iff in Hmd. bools.
  repeat split; try assumption.
  destruct Hmd as [Hmd|Hmd]; bools; [left|right]; lia.
Qed.

Lemma easter_sunday_spring (y : Z) (E : date) :
  easter_sunday_of y E ->
  E = spring_date y (march_day E) /\ 22 <= march_day E <= 56.
Proof.
  intros (_ & Hy & _ & Hmd). destruct E as [y' m d].
  cbn [year month day] in *. subst y'. unfold march_day, spring_date.
  cbn [year month day].
  destruct Hmd as [[-> Hd]|[-> Hd]].
  - change (3 =? 3) with true. cbv iota.
    destruct (Z.leb_spec d 31); [split; [reflexivity|lia] | lia].
  - change (4 =? 3) with false. cbv iota.
    destruct (Z.leb_spec (d + 31) 31); [lia|].
    destruct (Z.leb_spec (d + 31) 61); [|lia].
    split; [f_equal|]; lia.
Qed.

(** Easter plus a few weeks: the date arithmetic succeeds, stays in the year
    and moves the ordinal by exactly the offset. *)
Lemma easter_plus_days (y : Z) (E : date) (k : Z) :
  MINYEAR <= y <= MAXYEAR -> easter_sunday_of y E -> -21 <= k <= 66 ->
  date_add E (mktimedelta k) = inr (plus_days E k)
  /\ plus_days E k = spring_date y (march_day E + k)
  /\ toordinal (plus_days E k) = toordinal E + k.
Proof.
  intros Hy HE Hk.
  destruct (easter_sunday_spring y E HE) as [HEs Hp].
  destruct (spring_date_facts y (march_day E) Hy ltac:(lia)) as (_ & _ & HoE).
  destruct (spring_date_facts y (march_day E + k) Hy ltac:(lia))
    as (Hv & _ & Ho).
  assert (Hadd : date_add E (mktimedelta k)
                 = inr (spring_date y (march_day E + k))).
  { apply date_add_to; [exact Hv|]. rewrite Ho.
    rewrite HEs at 2. rewrite HoE. ring. }
  unfold plus_days. rewrite Hadd. repeat split.
  rewrite Ho. rewrite HEs at 2. rewrite HoE. ring.
Qed.

End DateFacts.

(* ------------------------------------------------------------------ *)
(** ** What each step of the generator does *)

Section GeneratorFacts.

Variable src : nat -> UUID.

Lemma add_fixed_ok (cal : Calendar) (y m d : Z) (s : string) (w : Work)
    (n : nat) :
  MINYEAR <= y <= MAXYEAR -> 1 <= m <= 12 -> 1 <= d <= _days_in_month y m ->
  add_fixed src cal y m d s w n
  = inr (mkCalendar (properties cal)
           (subcomponents cal ++ [fixed_event (src n) y m d s w]), S n).
Proof.
  intros Hy Hm Hd. unfold add_fixed, bind, lift.
  rewrite (date_new_ok y m d Hy Hm Hd). reflexivity.
Qed.

Lemma add_fixed_unsupported (cal : Calendar) (y m d : Z) (s : string)
    (w : Work) (n : nat) :
  ~ (MINYEAR <= y <= MAXYEAR) ->
  add_fixed src cal y m d s w n = inl ValueError.
Proof.
  intros Hy. unfold add_fixed, bind, lift.
  rewrite (date_new_unsupported_year y m d Hy). reflexivity.
Qed.

Lemma first_of_january (y : Z) :
  MINYEAR <= y <= MAXYEAR -> date_new y 1 1 = inr (mkdate y 1 1).
Proof.
  intros Hy. apply date_new_ok; [exact Hy | lia |].
  rewrite days_in_month_not_february by lia. tables. lia.
Qed.

Lemma add_midsummers_eve_ok (cal : Calendar) (y : Z) (n : nat) :
  MINYEAR <= y <= MAXYEAR ->
  add_midsummers_eve src cal y n
  = inr (mkCalendar (properties cal)
           (subcomponents cal
            ++ [window_event (src n) y "Midsommarafton" DEFACTO
              (window_rule FR [19; 20; 21; 22; 23; 24; 25] (RInt 6))]), S n).
Proof.
  intros Hy. unfold add_midsummers_eve, bind, lift.
  rewrite (first_of_january y Hy). reflexivity.
Qed.

Lemma add_midsummer_day_ok (cal : Calendar) (y : Z) (n : nat) :
  MINYEAR <= y <= MAXYEAR ->
  add_midsummer_day src cal y n
  = inr (mkCalendar (properties cal)
           (subcomponents cal
            ++ [window_event (src n) y "Midsommardagen" FREE
              (window_rule SA [20; 21; 22; 23; 24; 25; 26] (RInt 6))]), S n).
Proof.
  intros Hy. unfold add_midsummer_day, bind, lift.
  rewrite (first_of_january y Hy). reflexivity.
Qed.

Lemma add_all_saints_eve_ok (cal : Calendar) (y : Z) (n : nat) :
  MINYEAR <= y <= MAXYEAR ->
  add_all_saints_eve src cal y n
  = inr (mkCalendar (properties cal)
           (subcomponents cal
            ++ [window_event (src n) y "Allhelgonaafton" DEPENDS
              (window_rule FR [30; 31; 1; 2; 3; 4; 5] (RTuple [10; 11]))]),
         S n).
Proof.
  intros Hy. unfold add_all_saints_eve, bind, lift.
  rewrite (first_of_january y Hy). reflexivity.
Qed.

Lemma add_all_saints_day_ok (cal : Calendar) (y : Z) (n : nat) :
  MINYEAR <= y <= MAXYEAR ->
  add_all_saints_day src cal y n
  = inr (mkCalendar (properties cal)
           (subcomponents cal
            ++ [window_event (src n) y "Alla helgons dag" FREE
              (window_rule SA [31; 1; 2; 3; 4; 5; 6] (RTuple [10; 11]))]),
         S n).
Proof.
  intros Hy. unfold add_all_saints_day, bind, lift.
  rewrite (first_of_january y Hy). reflexivity.
Qed.

Lemma add_easter_ok (cal : Calendar) (y : Z) (n : nat) :
  MINYEAR <= y <= MAXYEAR ->
  add_easter src cal y n
  = inr (mkCalendar (properties cal)
           (subcomponents cal ++ easter_block src n y), (8 + n)%nat).
Proof.
  intros Hy. destruct (easter_supported y Hy) as [E HE].
  pose proof (fun k Hk => proj1 (easter_plus_days y E k Hy HE Hk)) as Hadd.
  destruct HE as (HE & _).
  unfold add_easter, easter_block, bind, lift. rewrite HE.
  change (date_sub E (timedelta_new 3 0)) with (date_add E (mktimedelta (-3))).
  change (date_sub E (timedelta_new 2 0)) with (date_add E (mktimedelta (-2))).
  change (date_sub E (timedelta_new 1 0)) with (date_add E (mktimedelta (-1))).
  change (timedelta_new 1 0) with (mktimedelta 1).
  change (timedelta_new 4 5) with (mktimedelta 39).
  change (timedelta_new 6 6) with (mktimedelta 48).
  change (timedelta_new 0 7) with (mktimedelta 49).
  rewrite !Hadd by lia.
  unfold Holiday, uuid1, bind, ret, add_component.
  cbn [subcomponents properties]. rewrite <- !app_assoc. reflexivity.
Qed.

Lemma add_easter_unsupported (cal : Calendar) (y : Z) (n : nat) :
  ~ (MINYEAR <= y <= MAXYEAR) -> add_easter src cal y n = inl ValueError.
Proof.
  intros Hy. unfold add_easter, bind, lift.
  rewrite (easter_unsupported_year y Hy). reflexivity.
Qed.

(** The loop of [generate] over [c] years, entered at index [start]. *)
Lemma easter_loop_ok (sy : Z) (c : nat) :
  forall (start : nat) (cal : Calendar) (n : nat),
  MINYEAR <= sy + Z.of_nat start ->
  sy + Z.of_nat start + Z.of_nat c <= MAXYEAR + 1 ->
  for_each (map Z.of_nat (seq start c))
    (fun calendar i => add_easter src calendar (sy + i)) cal n
  = inr (mkCalendar (properties cal)
           (subcomponents cal
            ++ easter_blocks src n (sy + Z.of_nat start) c),
         (8 * c + n)%nat).
Proof.
  induction c as [|c IH]; intros start cal n Hlo Hhi.
  - cbn. rewrite app_nil_r. now destruct cal.
  - cbn [seq map for_each]. unfold bind.
    rewrite add_easter_ok by lia.
    rewrite (IH (S start)) by lia.
    cbn [properties subcomponents easter_blocks]. rewrite <- app_assoc.
    replace (sy + Z.of_nat (S start)) with (sy + Z.of_nat start + 1) by lia.
    do 2 f_equal. lia.
Qed.

Lemma easter_loop_unsupported (sy : Z) (c : nat) :
  forall (start : nat) (cal : Calendar) (n : nat),
  MINYEAR <= sy + Z.of_nat start <= MAXYEAR + 1 ->
  MAXYEAR + 1 < sy + Z.of_nat start + Z.of_nat c ->
  for_each (map Z.of_nat (seq start c))
    (fun calendar i => add_easter src calendar (sy + i)) cal n
  = inl ValueError.
Proof.
  induction c as [|c IH]; intros start cal n Hlo Hhi.
  - lia.
  - cbn [seq map for_each]. unfold bind.
    destruct (Z.eq_dec (sy + Z.of_nat start) (MAXYEAR + 1)) as [E|N].
    + rewrite add_easter_unsupported by lia. reflexivity.
    + rewrite add_easter_ok by lia. apply IH; lia.
Qed.

Lemma bind_ok {A B : Type} (m : M A) (k : A -> M B) (n n' : nat) (a : A) :
  m n = inr (a, n') -> bind m k n = k a n'.
Proof. intros H. unfold bind. now rewrite H. Qed.

Lemma bind_raise {A B : Type} (m : M A) (k : A -> M B) (n : nat) (e : exn) :
  m n = inl e -> bind m k n = inl e.
Proof. intros H. unfold bind. now rewrite H. Qed.

(** One statement of [generate] that succeeds, by the lemma [lem]. *)
Ltac run_step lem :=
  etransitivity;
  [ eapply bind_ok; lem
  | cbv beta; cbn [properties subcomponents] ].

Ltac fixed_step :=
  run_step ltac:(apply add_fixed_ok;
                 [ assumption | lia
                 | rewrite days_in_month_not_february by lia; tables; lia ]).

Lemma generate_supported (sy count : Z) (n : nat) :
  supported sy count ->
  generate src sy count n
  = inr (mkCalendar document_properties
           (expected_events src n sy (Z.to_nat count)),
         (8 * Z.to_nat count + 14 + n)%nat).
Proof.
  intros [Hy Hc]. unfold generate, range. cbv zeta.
  change (add (add Calendar_new "prodid"
                 "-//Mozilla.org/NONSGML Mozilla Calendar V1.1//")
            "version" "2.0")
    with (mkCalendar document_properties []).
  do 3 fixed_step.
  run_step ltac:(apply (easter_loop_ok sy (Z.to_nat count) 0);
                 cbn [Z.of_nat]; lia).
  do 3 fixed_step.
  run_step ltac:(apply add_midsummers_eve_ok; assumption).
  run_step ltac:(apply add_midsummer_day_ok; assumption).
  run_step ltac:(apply add_all_saints_eve_ok; assumption).
  run_step ltac:(apply add_all_saints_day_ok; assumption).
  do 4 fixed_step.
  unfold ret. change (Z.of_nat 0) with 0. rewrite Z.add_0_r.
  f_equal. f_equal.
  - rewrite <- !app_assoc. reflexivity.
  - lia.
Qed.

Lemma generate_unsupported (sy count : Z) (n : nat) :
  ~ supported sy count -> generate src sy count n = inl ValueError.
Proof.
  intros Hn. unfold generate, range. cbv zeta.
  destruct (Z_le_dec MINYEAR sy) as [H1|H1];
    [destruct (Z_le_dec sy MAXYEAR) as [H2|H2]|];
    try (apply bind_raise; apply add_fixed_unsupported; lia).
  assert (Hy : MINYEAR <= sy <= MAXYEAR) by lia.
  do 3 fixed_step.
  apply bind_raise. apply (easter_loop_unsupported sy (Z.to_nat count) 0).
  - cbn [Z.of_nat]. lia.
  - unfold supported in Hn. cbn [Z.of_nat]. lia.
Qed.

End GeneratorFacts.

(* ------------------------------------------------------------------ *)
(** ** The shape of a generated document *)

Lemma filter_none {A : Type} (f : A -> bool) (l : list A) :
  Forall (fun x => f x = false) l -> filter f l = [].
Proof.
  induction 1 as [|x l Hx _ IH]; [reflexivity|].
  cbn [filter]. now rewrite Hx.
Qed.

Lemma filter_all {A : Type} (f : A -> bool) (l : list A) :
  Forall (fun x => f x = true) l -> filter f l = l.
Proof.
  induction 1 as [|x l Hx _ IH]; [reflexivity|].
  cbn [filter]. rewrite Hx. now f_equal.
Qed.

(** Evaluates [has_kind] on the events whose rule is known. *)
Ltac eval_kinds :=
  repeat match goal with
  | |- context [has_kind ?k ?e] =>
      let v := eval lazy in (has_kind k e) in
      lazymatch v with true => idtac | false => idtac end;
      change (has_kind k e) with v
  end.

Section DocumentShape.

Variable src : nat -> UUID.

Lemma easter_block_kind (n : nat) (y : Z) :
  Forall (fun e => kind_of e = NonRecurring) (easter_block src n y).
Proof.
  unfold easter_block. destruct (easter y); repeat constructor.
Qed.

Lemma easter_blocks_kind (c : nat) :
  forall (n : nat) (y : Z),
  Forall (fun e => kind_of e = NonRecurring) (easter_blocks src n y c).
Proof.
  induction c as [|c IH]; intros n y; cbn [easter_blocks].
  - constructor.
  - apply Forall_app. split; [apply easter_block_kind | apply IH].
Qed.

Lemma easter_blocks_has_kind (k : Kind) (c : nat) (n : nat) (y : Z) :
  Forall (fun e => has_kind k e = Kind_eqb NonRecurring k)
    (easter_blocks src n y c).
Proof.
  eapply Forall_impl; [|apply easter_blocks_kind].
  intros e He. unfold has_kind. now rewrite He.
Qed.

Lemma easter_block_length (n : nat) (y : Z) :
  MINYEAR <= y <= MAXYEAR -> List.length (easter_block src n y) = 8%nat.
Proof.
  intros Hy. destruct (easter_supported y Hy) as (E & HE & _).
  unfold easter_block. now rewrite HE.
Qed.

Lemma easter_blocks_length (c : nat) :
  forall (n : nat) (y : Z),
  MINYEAR <= y -> y + Z.of_nat c <= MAXYEAR + 1 ->
  List.length (easter_blocks src n y c) = (8 * c)%nat.
Proof.
  induction c as [|c IH]; intros n y Hlo Hhi; cbn [easter_blocks].
  - reflexivity.
  - rewrite List.length_app, easter_block_length, IH by lia. lia.
Qed.

(** The [i]-th block of the loop holds the events of year [y + i]. *)
Lemma easter_blocks_nth (c : nat) :
  forall (i n : nat) (y : Z),
  (i < c)%nat -> MINYEAR <= y -> y + Z.of_nat c <= MAXYEAR + 1 ->
  firstn 8 (skipn (8 * i) (easter_blocks src n y c))
  = easter_block src (8 * i + n) (y + Z.of_nat i).
Proof.
  induction c as [|c IH]; intros i n y Hi Hlo Hhi; [lia|].
  cbn [easter_blocks].
  pose proof (easter_block_length n y ltac:(lia)) as Hlen.
  destruct i as [|i].
  - change (8 * 0)%nat with 0%nat. cbn [skipn Nat.add Z.of_nat].
    rewrite Z.add_0_r. rewrite <- Hlen at 1.
    rewrite firstn_app, Nat.sub_diag, firstn_all. cbn [firstn].
    apply app_nil_r.
  - replace (8 * S i)%nat with (List.length (easter_block src n y) + 8 * i)%nat
      by lia.
    rewrite skipn_app, skipn_all2 by lia.
    replace (List.length (easter_block src n y) + 8 * i
             - List.length (easter_block src n y))%nat with (8 * i)%nat by lia.
    cbn [app]. rewrite IH by lia.
    f_equal; lia.
Qed.

Lemma expected_events_length (n : nat) (sy : Z) (c : nat) :
  MINYEAR <= sy -> sy + Z.of_nat c <= MAXYEAR + 1 ->
  List.length (expected_events src n sy c) = (14 + 8 * c)%nat.
Proof.
  intros Hlo Hhi. unfold expected_events. cbv zeta.
  rewrite !List.length_app, easter_blocks_length by lia. cbn [List.length]. lia.
Qed.

Lemma expected_events_fixed (n : nat) (sy : Z) (c : nat) :
  filter (has_kind FixedYearly) (expected_events src n sy c)
  = let m := (8 * c + (3 + n))%nat in
    [fixed_event (src n) sy 1 1 "Nyårsdagen" FREE;
     fixed_event (src (1 + n)%nat) sy 1 5 "Trettondagsafton" DEPENDS;
     fixed_event (src (2 + n)%nat) sy 1 6 "Trettondedag jul" FREE;
     fixed_event (src m) sy 4 30 "Valborgsmässoafton" DEPENDS;
     fixed_event (src (1 + m)%nat) sy 5 1 "Första maj" FREE;
     fixed_event (src (2 + m)%nat) sy 6 6 "Sveriges nationaldag" FREE;
     fixed_event (src (7 + m)%nat) sy 12 24 "Julafton" DEFACTO;
     fixed_event (src (8 + m)%nat) sy 12 25 "Juldagen" FREE;
     fixed_event (src (9 + m)%nat) sy 12 26 "Annandag jul" FREE;
     fixed_event (src (10 + m)%nat) sy 12 31 "Nyårsafton" DEFACTO].
Proof.
  unfold expected_events. cbv zeta. rewrite !filter_app.
  rewrite (filter_none _ (easter_blocks src (3 + n) sy c))
    by apply (easter_blocks_has_kind FixedYearly).
  cbn [filter]. eval_kinds. cbv iota. reflexivity.
Qed.

Lemma expected_events_window (n : nat) (sy : Z) (c : nat) :
  filter (has_kind WeekdayWindow) (expected_events src n sy c)
  = let m := (8 * c + (3 + n))%nat in
    [window_event (src (3 + m)%nat) sy "Midsommarafton" DEFACTO
       (window_rule FR [19; 20; 21; 22; 23; 24; 25] (RInt 6));
     window_event (src (4 + m)%nat) sy "Midsommardagen" FREE
       (window_rule SA [20; 21; 22; 23; 24; 25; 26] (RInt 6));
     window_event (src (5 + m)%nat) sy "Allhelgonaafton" DEPENDS
       (window_rule FR [30; 31; 1; 2; 3; 4; 5] (RTuple [10; 11]));
     window_event (src (6 + m)%nat) sy "Alla helgons dag" FREE
       (window_rule SA [31; 1; 2; 3; 4; 5; 6] (RTuple [10; 11]))].
Proof.
  unfold expected_events. cbv zeta. rewrite !filter_app.
  rewrite (filter_none _ (easter_blocks src (3 + n) sy c))
    by apply (easter_blocks_has_kind WeekdayWindow).
  cbn [filter]. eval_kinds. cbv iota. reflexivity.
Qed.

Lemma expected_events_single (n : nat) (sy : Z) (c : nat) :
  filter (has_kind NonRecurring) (expected_events src n sy c)
  = easter_blocks src (3 + n) sy c.
Proof.
  unfold expected_events. cbv zeta. rewrite !filter_app.
  rewrite (filter_all _ (easter_blocks src (3 + n) sy c))
    by apply (easter_blocks_has_kind NonRecurring).
  cbn [filter]. eval_kinds. cbv iota. cbn [app]. apply app_nil_r.
Qed.

End DocumentShape.

(* ------------------------------------------------------------------ *)
(** ** More about the events of a run *)

Ltac in_range := unfold supported, MINYEAR, MAXYEAR in *; lia.

(** The eight events from position [3 + 8 * i] on are those of year
    [sy + i]. *)
Lemma block_of_expected (src : nat -> UUID) (n : nat) (sy : Z) (c i : nat) :
  (i < c)%nat -> MINYEAR <= sy -> sy + Z.of_nat c <= MAXYEAR + 1 ->
  firstn 8 (skipn (3 + 8 * i) (expected_events src n sy c))
  = easter_block src (8 * i + (3 + n)) (sy + Z.of_nat i).
Proof.
  intros Hi Hlo Hhi. unfold expected_events. cbv zeta.
  pose proof (easter_blocks_length src c (3 + n) sy Hlo Hhi) as Hlen.
  rewrite skipn_app. cbn [List.length].
  rewrite skipn_all2 by (cbn [List.length]; lia).
  replace (3 + 8 * i - 3)%nat with (8 * i)%nat by lia.
  cbn [app]. rewrite skipn_app, firstn_app, length_skipn, Hlen.
  replace (8 * i - 8 * c)%nat with 0%nat by lia.
  replace (8 - (8 * c - 8 * i))%nat with 0%nat by lia.
  cbn [skipn firstn]. rewrite app_nil_r.
  now apply easter_blocks_nth.
Qed.

Lemma easter_blocks_listing (src : nat -> UUID) (c : nat) :
  forall (n : nat) (y : Z),
  MINYEAR <= y -> y + Z.of_nat c <= MAXYEAR + 1 ->
  map listing (easter_blocks src n y c) = List.concat (repeat easter_listing c).
Proof.
  induction c as [|c IH]; intros n y Hlo Hhi; [reflexivity|].
  cbn [easter_blocks repeat List.concat]. rewrite map_app, IH by lia.
  f_equal. destruct (easter_supported y ltac:(lia)) as (E & HE & _).
  unfold easter_block. rewrite HE. reflexivity.
Qed.

(** The content of the events does not depend on the identifiers drawn. *)
Lemma easter_blocks_content (src1 src2 : nat -> UUID) (c : nat) :
  forall (n1 n2 : nat) (y : Z),
  map content (easter_blocks src1 n1 y c)
  = map content (easter_blocks src2 n2 y c).
Proof.
  induction c as [|c IH]; intros n1 n2 y; [reflexivity|].
  cbn [easter_blocks]. rewrite !map_app.
  apply (f_equal2 (@app _)); [|apply IH].
  unfold easter_block. destruct (easter y); reflexivity.
Qed.

Lemma expected_events_content (src1 src2 : nat -> UUID) (n1 n2 : nat)
    (sy : Z) (c : nat) :
  map content (expected_events src1 n1 sy c)
  = map content (expected_events src2 n2 sy c).
Proof.
  unfold expected_events. cbv zeta. rewrite !map_app.
  apply (f_equal2 (@app _)); [reflexivity|].
  apply (f_equal2 (@app _)); [apply easter_blocks_content | reflexivity].
Qed.

Lemma easter_blocks_annotated (src : nat -> UUID) (c : nat) :
  forall (n : nat) (y : Z),
  Forall annotated_by_status (easter_blocks src n y c).
Proof.
  induction c as [|c IH]; intros n y; cbn [easter_blocks]; [constructor|].
  apply Forall_app. split; [|apply IH].
  unfold easter_block. destruct (easter y); [constructor|].
  repeat constructor;
    first [ now (exists DEPENDS) | now (exists FREE) | now (exists DEFACTO) ].
Qed.

Lemma expected_events_annotated (src : nat -> UUID) (n : nat) (sy : Z)
    (c : nat) :
  Forall annotated_by_status (expected_events src n sy c).
Proof.
  unfold expected_events. cbv zeta.
  repeat (apply Forall_app; split); try apply easter_blocks_annotated;
    repeat constructor;
    first [ now (exists DEPENDS) | now (exists FREE) | now (exists DEFACTO) ].
Qed.

Lemma supported_dec (sy count : Z) : {supported sy count} + {~ supported sy count}.
Proof.
  unfold supported.
  destruct (Z_le_dec MINYEAR sy), (Z_le_dec sy MAXYEAR),
    (Z_le_dec (sy + Z.max 0 count) (MAXYEAR + 1));
    (left; lia) || (right; lia).
Qed.

(** [generate] returns a document exactly for the supported arguments. *)
Lemma generate_returns_iff_supported (src : nat -> UUID) (sy count : Z)
    (n : nat) :
  (exists doc n', generate src sy count n = inr (doc, n'))
  <-> supported sy count.
Proof.
  split.
  - intros (doc & n' & H). destruct (supported_dec sy count) as [Hs|Hs];
      [exact Hs|].
    rewrite (generate_unsupported src sy count n Hs) in H. discriminate H.
  - intros Hs. rewrite (generate_supported src sy count n Hs). eauto.
Qed.

Lemma days_before_next_year (y : Z) :
  _days_before_year (y + 1) = _days_before_year y + 365 + b2z (_is_leap y).
Proof.
  unfold _days_before_year, _is_leap. cbv zeta.
  replace (y + 1 - 1) with y by ring.
  destruct (Z.eqb_spec (y mod 4) 0), (Z.eqb_spec (y mod 100) 0),
    (Z.eqb_spec (y mod 400) 0); cbn [andb orb negb b2z];
    Z.to_euclidean_division_equations; lia.
Qed.

Lemma days_before_year_mono (a b : Z) :
  a <= b -> _days_before_year a <= _days_before_year b.
Proof.
  intros Hab. unfold _days_before_year. cbv zeta.
  Z.to_euclidean_division_equations; lia.
Qed.

(** The ordinals of a year lie between the days before it and the days
    before the next. *)
Lemma toordinal_in_year (D : date) :
  valid_date D ->
  _days_before_year (year D) < toordinal D
  <= _days_before_year (year D + 1).
Proof.
  intros (Hy & Hm & Hd). destruct D as [y m d]. cbn [year month day] in *.
  pose proof (valid_md_days_in_month y m d Hm Hd) as Hv.
  destruct (month_day_offset _ _ _ Hv) as (_ & Hoff & _).
  pose proof (offset_in_year_ordinal y m d) as Ho.
  unfold toordinal. cbn [year month day].
  rewrite days_before_next_year. lia.
Qed.

Lemma toordinal_year_lt (D D' : date) :
  valid_date D -> valid_date D' -> year D < year D' ->
  toordinal D < toordinal D'.
Proof.
  intros HD HD' Hlt.
  pose proof (toordinal_in_year D HD) as H1.
  pose proof (toordinal_in_year D' HD') as H2.
  pose proof (days_before_year_mono (year D + 1) (year D') ltac:(lia)). lia.
Qed.

(** Anchor year, validity and ordinal of the eight events of a year. *)
Lemma easter_block_anchors (src : nat -> UUID) (n : nat) (y : Z) :
  MINYEAR <= y <= MAXYEAR ->
  exists E,
    easter_sunday_of y E
    /\ map (fun e => toordinal (dtstart e)) (easter_block src n y)
       = map (fun k => toordinal E + k) [-3; -2; -1; 0; 1; 39; 48; 49]
    /\ Forall (fun e => valid_date (dtstart e) /\ year (dtstart e) = y
                        /\ 3 <= month (dtstart e) <= 6)
         (easter_block src n y).
Proof.
  intros Hy. destruct (easter_supported y Hy) as [E HE]. exists E.
  split; [exact HE|].
  pose proof (fun k Hk => proj2 (easter_plus_days y E k Hy HE Hk)) as Hk.
  destruct (easter_sunday_spring y E HE) as [HEs Hp].
  assert (Hs : forall p, 1 <= p <= 122 ->
            valid_date (spring_date y p) /\ year (spring_date y p) = y
            /\ 3 <= month (spring_date y p) <= 6).
  { intros p Hp'. destruct (spring_date_facts y p Hy Hp') as (Hv & Hyr & _).
    split; [exact Hv | split; [exact Hyr|]].
    unfold spring_date;
      (destruct (p <=? 31); [|destruct (p <=? 61); [|destruct (p <=? 92)]]);
      cbn [month]; lia. }
  assert (HE0 : valid_date E /\ year E = y /\ 3 <= month E <= 6).
  { rewrite HEs. apply Hs. lia. }
  destruct HE as (HEq & _). unfold easter_block. rewrite HEq.
  cbn [map dtstart Holiday_fields]. split.
  - rewrite !(fun k Hk' => proj2 (Hk k Hk')) by lia.
    now rewrite Z.add_0_r.
  - repeat constructor; try apply HE0;
      rewrite (fun k Hk' => proj1 (Hk k Hk')) by lia; apply Hs; lia.
Qed.

Lemma easter_blocks_anchors (src : nat -> UUID) (c : nat) :
  forall (n : nat) (y : Z),
  MINYEAR <= y -> y + Z.of_nat c <= MAXYEAR + 1 ->
  Forall (fun e => valid_date (dtstart e)
                   /\ y <= year (dtstart e) < y + Z.of_nat c
                   /\ 3 <= month (dtstart e) <= 6)
    (easter_blocks src n y c)
  /\ map (fun e => year (dtstart e)) (easter_blocks src n y c)
     = flat_map (fun y' => repeat y' 8) (zrange y c).
Proof.
  induction c as [|c IH]; intros n y Hlo Hhi.
  - split; [constructor | reflexivity].
  - cbn [easter_blocks zrange flat_map].
    destruct (easter_block_anchors src n y ltac:(lia)) as (E & _ & _ & Hb).
    destruct (IH (8 + n)%nat (y + 1) ltac:(lia) ltac:(lia)) as [Hr Hyr].
    split.
    + apply Forall_app. split.
      * eapply Forall_impl; [|exact Hb]. intros e (Hv & Hye & Hm).
        split; [exact Hv | split; [lia | exact Hm]].
      * eapply Forall_impl; [|exact Hr]. intros e (Hv & Hye & Hm).
        split; [exact Hv | split; [lia | exact Hm]].
    + rewrite map_app, Hyr. f_equal.
      pose proof (easter_block_length src n y ltac:(lia)) as Hlen.
      clear - Hb Hlen. revert Hlen.
      generalize 8%nat as k. induction Hb as [|e l (_ & He & _) _ IHl];
        intros [|k] Hlen; try discriminate Hlen; [reflexivity|].
      cbn [map repeat]. rewrite He. f_equal. apply IHl.
      now injection Hlen.
Qed.

(* ------------------------------------------------------------------ *)
(** ** Weekday windows as calendar days *)

Ltac closed_tests :=
  repeat match goal with
  | |- context [?a <? ?b] =>
      let v := eval vm_compute in (a <? b) in
      lazymatch v with true => idtac | false => idtac end;
      change (a <? b) with v
  | |- context [?a =? ?b] =>
      let v := eval vm_compute in (a =? b) in
      lazymatch v with true => idtac | false => idtac end;
      change (a =? b) with v
  end.

(** Side conditions about months other than February. *)
Ltac month_arith :=
  first
    [ assumption
    | lia
    | rewrite ?days_in_month_not_february by lia;
      unfold _days_before_month; tables; closed_tests; cbn [andb b2z]; lia ].

Lemma same_year_add (y m d m' d' k : Z) :
  MINYEAR <= y <= MAXYEAR -> 1 <= m' <= 12 ->
  1 <= d' <= _days_in_month y m' ->
  _days_before_month y m' + d' = _days_before_month y m + d + k ->
  date_add (mkdate y m d) (mktimedelta k) = inr (mkdate y m' d').
Proof.
  intros Hy Hm Hd Ho. apply date_add_to.
  - repeat split; cbn [year month day]; lia.
  - unfold toordinal, _ymd2ord. cbn [year month day]. lia.
Qed.

Lemma map_inr_inj {A B : Type} (l l' : list B) :
  map (@inr A B) l = map (@inr A B) l' -> l = l'.
Proof.
  revert l'. induction l as [|x l IH]; intros [|x' l'] H;
    try discriminate; [reflexivity|].
  cbn [map] in H. injection H as Hx Hl. subst x'. f_equal. now apply IH.
Qed.

(** Unfolds [window_dates] of a written-out rule to its list of sums. *)
Ltac window_dates_steps Hy :=
  unfold window_dates;
  match goal with
  | |- context [rule_months ?r] =>
      let v := eval vm_compute in (rule_months r) in
      change (rule_months r) with v
  end;
  match goal with
  | |- context [rule_monthdays ?r] =>
      let v := eval vm_compute in (rule_monthdays r) in
      change (rule_monthdays r) with v
  end;
  cbn [hd List.length seq map];
  rewrite date_new_ok by month_arith;
  cbn [map];
  repeat match goal with
  | |- _ :: _ = _ :: _ =>
      apply (f_equal2 (@cons _)); [apply same_year_add; month_arith|]
  end;
  reflexivity.

Lemma window_dates_midsummers_eve (y : Z) :
  MINYEAR <= y <= MAXYEAR ->
  window_dates y (window_rule FR [19; 20; 21; 22; 23; 24; 25] (RInt 6))
  = map inr [mkdate y 6 19; mkdate y 6 20; mkdate y 6 21; mkdate y 6 22;
             mkdate y 6 23; mkdate y 6 24; mkdate y 6 25].
Proof. intros Hy. window_dates_steps Hy. Qed.

Lemma window_dates_midsummer_day (y : Z) :
  MINYEAR <= y <= MAXYEAR ->
  window_dates y (window_rule SA [20; 21; 22; 23; 24; 25; 26] (RInt 6))
  = map inr [mkdate y 6 20; mkdate y 6 21; mkdate y 6 22; mkdate y 6 23;
             mkdate y 6 24; mkdate y 6 25; mkdate y 6 26].
Proof. intros Hy. window_dates_steps Hy. Qed.

Lemma window_dates_all_saints_eve (y : Z) :
  MINYEAR <= y <= MAXYEAR ->
  window_dates y (window_rule FR [30; 31; 1; 2; 3; 4; 5] (RTuple [10; 11]))
  = map inr [mkdate y 10 30; mkdate y 10 31; mkdate y 11 1; mkdate y 11 2;
             mkdate y 11 3; mkdate y 11 4; mkdate y 11 5].
Proof. intros Hy. window_dates_steps Hy. Qed.

Lemma window_dates_all_saints_day (y : Z) :
  MINYEAR <= y <= MAXYEAR ->
  window_dates y (window_rule SA [31; 1; 2; 3; 4; 5; 6] (RTuple [10; 11]))
  = map inr [mkdate y 10 31; mkdate y 11 1; mkdate y 11 2; mkdate y 11 3;
             mkdate y 11 4; mkdate y 11 5; mkdate y 11 6].
Proof. intros Hy. window_dates_steps Hy. Qed.

Ltac pick_member := solve [repeat first [left; reflexivity | right]].

Lemma window_invariant_midsummers_eve :
  window_invariant (window_rule FR [19; 20; 21; 22; 23; 24; 25] (RInt 6)).
Proof.
  split; [reflexivity|]. split; [reflexivity|].
  split; [left; reflexivity|].
  intros y Hy. split; [|split].
  - eexists. split; [apply window_dates_midsummers_eve; assumption|].
    split; [reflexivity | repeat constructor; pick_member].
  - intros (ds & Hds & d & d' & Hd & Hd' & Hne).
    rewrite window_dates_midsummers_eve in Hds by assumption.
    apply map_inr_inj in Hds. subst ds. exfalso. apply Hne.
    assert (Hm : forall x,
      In x [mkdate y 6 19; mkdate y 6 20; mkdate y 6 21; mkdate y 6 22;
            mkdate y 6 23; mkdate y 6 24; mkdate y 6 25] -> month x = 6).
    { intros x Hx. cbn [In] in Hx.
      repeat (destruct Hx as [<-|Hx]; [reflexivity|]). contradiction. }
    now rewrite (Hm d Hd), (Hm d' Hd').
  - intros H. vm_compute in H. discriminate H.
Qed.

Lemma window_invariant_midsummer_day :
  window_invariant (window_rule SA [20; 21; 22; 23; 24; 25; 26] (RInt 6)).
Proof.
  split; [reflexivity|]. split; [reflexivity|].
  split; [left; reflexivity|].
  intros y Hy. split; [|split].
  - eexists. split; [apply window_dates_midsummer_day; assumption|].
    split; [reflexivity | repeat constructor; pick_member].
  - intros (ds & Hds & d & d' & Hd & Hd' & Hne).
    rewrite window_dates_midsummer_day in Hds by assumption.
    apply map_inr_inj in Hds. subst ds. exfalso. apply Hne.
    assert (Hm : forall x,
      In x [mkdate y 6 20; mkdate y 6 21; mkdate y 6 22; mkdate y 6 23;
            mkdate y 6 24; mkdate y 6 25; mkdate y 6 26] -> month x = 6).
    { intros x Hx. cbn [In] in Hx.
      repeat (destruct Hx as [<-|Hx]; [reflexivity|]). contradiction. }
    now rewrite (Hm d Hd), (Hm d' Hd').
  - intros H. vm_compute in H. discriminate H.
Qed.

Lemma window_invariant_all_saints_eve :
  window_invariant
    (window_rule FR [30; 31; 1; 2; 3; 4; 5] (RTuple [10; 11])).
Proof.
  split; [reflexivity|]. split; [reflexivity|].
  split; [right; reflexivity|].
  intros y Hy. split; [|split; [reflexivity|intros _]].
  - eexists. split; [apply window_dates_all_saints_eve; assumption|].
    split; [reflexivity | repeat constructor; pick_member].
  - eexists. split; [apply window_dates_all_saints_eve; assumption|].
    exists (mkdate y 10 31), (mkdate y 11 1).
    split; [pick_member | split; [pick_member | cbn [month]; lia]].
Qed.

Lemma window_invariant_all_saints_day :
  window_invariant
    (window_rule SA [31; 1; 2; 3; 4; 5; 6] (RTuple [10; 11])).
Proof.
  split; [reflexivity|]. split; [reflexivity|].
  split; [right; reflexivity|].
  intros y Hy. split; [|split; [reflexivity|intros _]].
  - eexists. split; [apply window_dates_all_saints_day; assumption|].
    split; [reflexivity | repeat constructor; pick_member].
  - eexists. split; [apply window_dates_all_saints_day; assumption|].
    exists (mkdate y 10 31), (mkdate y 11 1).
    split; [pick_member | split; [pick_member | cbn [month]; lia]].
Qed.

Lemma Forall_of_filter {A : Type} (f : A -> bool) (Q : A -> Prop)
    (l : list A) :
  Forall Q (filter f l) -> Forall (fun x => f x = true -> Q x) l.
Proof.
  induction l as [|x l IH]; intros H; [constructor|].
  cbn [filter] in H. destruct (f x) eqn:Hx.
  - inversion H; subst. constructor; [intros _; assumption | now apply IH].
  - constructor; [intros Hf; congruence | now apply IH].
Qed.

(* ------------------------------------------------------------------ *)
(** ** The claims of the specification *)

(** Claim C1, as the code has it: for every supported [start_year] and every
    [count >= 1] the returned document holds exactly [14 + 8 * count]
    events: 10 fixed-date and 4 weekday-window events carrying a recurrence
    rule, emitted once, and 8 non-recurring Easter-relative events for each
    requested year. *)
Theorem generate_event_count (src : nat -> UUID) (sy count : Z) (n : nat) :
  1 <= count -> supported sy count ->
  exists doc n',
    generate src sy count n = inr (doc, n')
    /\ Z.of_nat (List.length (subcomponents doc)) = 14 + 8 * count
    /\ List.length (filter (has_kind FixedYearly) (subcomponents doc)) = 10%nat
    /\ List.length (filter (has_kind WeekdayWindow) (subcomponents doc)) = 4%nat
    /\ Z.of_nat (List.length
                   (filter (has_kind NonRecurring) (subcomponents doc)))
       = 8 * count.
Proof.
  intros Hc Hs. eexists. eexists. split; [apply generate_supported; exact Hs|].
  cbn [subcomponents].
  rewrite expected_events_length, expected_events_fixed,
    expected_events_window, expected_events_single by in_range.
  rewrite easter_blocks_length by in_range.
  repeat split; try reflexivity; lia.
Qed.

(** The count for one year from 2024. *)
Lemma generate_event_count_witness :
  exists doc n',
    generate counting_source 2024 1 0%nat = inr (doc, n')
    /\ Z.of_nat (List.length (subcomponents doc)) = 14 + 8 * 1
    /\ List.length (filter (has_kind FixedYearly) (subcomponents doc)) = 10%nat
    /\ List.length (filter (has_kind WeekdayWindow) (subcomponents doc)) = 4%nat
    /\ Z.of_nat (List.length
                   (filter (has_kind NonRecurring) (subcomponents doc)))
       = 8 * 1.
Proof.
  apply (generate_event_count counting_source 2024 1 0%nat); [lia | in_range].
Defined.

(** Claim C1 as stated fails: the document for one year from 2024 does not
    hold [12 + 8 * 1] events. *)
Lemma generate_event_count_not_12 :
  exists doc n',
    generate counting_source 2024 1 0%nat = inr (doc, n')
    /\ Z.of_nat (List.length (subcomponents doc)) <> 12 + 8 * 1.
Proof.
  eexists. eexists. split; [apply generate_supported; in_range|].
  cbn [subcomponents]. rewrite expected_events_length by in_range.
  change (Z.to_nat 1) with 1%nat. lia.
Qed.

(** Claim C2, as the code has it: for every supported [start_year] a
    [count < 1] raises nothing; the loop over the years is empty and the
    document holds the 14 events that carry a recurrence rule and no
    Easter-relative event. *)
Theorem generate_without_years (src : nat -> UUID) (sy count : Z) (n : nat) :
  MINYEAR <= sy <= MAXYEAR -> count < 1 ->
  exists doc n',
    generate src sy count n = inr (doc, n')
    /\ List.length (subcomponents doc) = 14%nat
    /\ filter (has_kind NonRecurring) (subcomponents doc) = [].
Proof.
  intros Hy Hc. eexists. eexists.
  split; [apply generate_supported; in_range|].
  cbn [subcomponents]. rewrite expected_events_single.
  rewrite expected_events_length by in_range.
  replace (Z.to_nat count) with 0%nat by lia. split; reflexivity.
Qed.

(** No years from 2023. *)
Lemma generate_without_years_witness :
  exists doc n',
    generate counting_source 2023 0 0%nat = inr (doc, n')
    /\ List.length (subcomponents doc) = 14%nat
    /\ filter (has_kind NonRecurring) (subcomponents doc) = [].
Proof.
  apply (generate_without_years counting_source 2023 0 0%nat);
    [unfold MINYEAR, MAXYEAR; lia | lia].
Defined.

(** Claim C2 as stated fails: [generate(2023, 0)] raises no error and returns
    a document. *)
Lemma generate_zero_years_returns :
  (exists doc n', generate counting_source 2023 0 0%nat = inr (doc, n'))
  /\ forall e, generate counting_source 2023 0 0%nat <> inl e.
Proof.
  assert (H : supported 2023 0) by in_range.
  rewrite (generate_supported counting_source 2023 0 0%nat H).
  split; [eauto | discriminate].
Qed.

(** Claim C3: for every year [sy + i] of a run the document holds, one after
    the other, the eight Easter-relative events; none has a recurrence
    rule; Easter Sunday is anchored at [easter_date] of the year and the
    other seven at the dates 3, 2 and 1 days before it and 1 day, 5 weeks and
    4 days, 6 weeks and 6 days, and 7 weeks after it; Maundy Thursday has
    work status [DEPENDS] and the other seven [FREE].  For 2024 the anchors
    of Easter Sunday, Maundy Thursday, Ascension Day and Whit Sunday are
    2024-03-31, 2024-03-28, 2024-05-09 and 2024-05-19. *)
Theorem easter_events_offsets :
  (forall (src : nat -> UUID) (sy count i : Z) (n : nat),
     supported sy count -> 0 <= i < count ->
     exists doc n' E,
       generate src sy count n = inr (doc, n')
       /\ easter (sy + i) = inr E
       /\ exists u0 u1 u2 u3 u4 u5 u6 u7 d0 d1 d2 d4 d5 d6 d7,
            firstn 8 (skipn (3 + 8 * Z.to_nat i) (subcomponents doc))
            = [Holiday_fields u0 d0 "Skärtorsdagen" DEPENDS;
               Holiday_fields u1 d1 "Långfredagen" FREE;
               Holiday_fields u2 d2 "Påskafton" FREE;
               Holiday_fields u3 E "Påskdagen" FREE;
               Holiday_fields u4 d4 "Annandag påsk" FREE;
               Holiday_fields u5 d5 "Kristi himmelsfärdsdag" FREE;
               Holiday_fields u6 d6 "Pingstafton" FREE;
               Holiday_fields u7 d7 "Pingstdagen" FREE]
            /\ toordinal d0 = toordinal E - 3
            /\ toordinal d1 = toordinal E - 2
            /\ toordinal d2 = toordinal E - 1
            /\ toordinal d4 = toordinal E + 1
            /\ toordinal d5 = toordinal E + (5 * 7 + 4)
            /\ toordinal d6 = toordinal E + (6 * 7 + 6)
            /\ toordinal d7 = toordinal E + 7 * 7
            /\ Forall (fun e => rrule e = None)
                 (firstn 8 (skipn (3 + 8 * Z.to_nat i) (subcomponents doc))))
  /\ (forall (src : nat -> UUID) (n : nat),
        exists doc n',
          generate src 2024 1 n = inr (doc, n')
          /\ let anchors :=
               map (fun e => (summary e, dtstart e)) (subcomponents doc) in
             In ("Påskdagen", mkdate 2024 3 31) anchors
             /\ In ("Skärtorsdagen", mkdate 2024 3 28) anchors
             /\ In ("Kristi himmelsfärdsdag", mkdate 2024 5 9) anchors
             /\ In ("Pingstdagen", mkdate 2024 5 19) anchors).
Proof.
  split.
  - intros src sy count i n Hs Hi.
    assert (Hy : MINYEAR <= sy + i <= MAXYEAR) by in_range.
    destruct (easter_supported (sy + i) Hy) as [E HE].
    pose proof (fun k Hk => proj2 (proj2 (easter_plus_days _ E k Hy HE Hk)))
      as Hord.
    destruct HE as (HE & _).
    eexists. eexists. exists E.
    split; [apply generate_supported; exact Hs|]. split; [exact HE|].
    cbn [subcomponents].
    rewrite (block_of_expected src n sy (Z.to_nat count) (Z.to_nat i))
      by in_range.
    rewrite Z2Nat.id by lia. unfold easter_block. rewrite HE.
    do 8 eexists.
    exists (plus_days E (-3)), (plus_days E (-2)), (plus_days E (-1)),
      (plus_days E 1), (plus_days E 39), (plus_days E 48), (plus_days E 49).
    split; [reflexivity|].
    repeat split; try (rewrite Hord by lia; lia).
    repeat constructor.
  - intros src n. eexists. eexists.
    split; [apply generate_supported; in_range|].
    cbn [subcomponents]. vm_compute.
    repeat split; repeat first [left; reflexivity | right].
Qed.

(** The Easter-relative events of 2024, the first year of a run of one. *)
Lemma easter_events_offsets_witness :
  exists doc n' E,
    generate counting_source 2024 1 0%nat = inr (doc, n')
    /\ easter (2024 + 0) = inr E
    /\ exists u0 u1 u2 u3 u4 u5 u6 u7 d0 d1 d2 d4 d5 d6 d7,
         firstn 8 (skipn (3 + 8 * Z.to_nat 0) (subcomponents doc))
         = [Holiday_fields u0 d0 "Skärtorsdagen" DEPENDS;
            Holiday_fields u1 d1 "Långfredagen" FREE;
            Holiday_fields u2 d2 "Påskafton" FREE;
            Holiday_fields u3 E "Påskdagen" FREE;
            Holiday_fields u4 d4 "Annandag påsk" FREE;
            Holiday_fields u5 d5 "Kristi himmelsfärdsdag" FREE;
            Holiday_fields u6 d6 "Pingstafton" FREE;
            Holiday_fields u7 d7 "Pingstdagen" FREE]
         /\ toordinal d0 = toordinal E - 3
         /\ toordinal d1 = toordinal E - 2
         /\ toordinal d2 = toordinal E - 1
         /\ toordinal d4 = toordinal E + 1
         /\ toordinal d5 = toordinal E + (5 * 7 + 4)
         /\ toordinal d6 = toordinal E + (6 * 7 + 6)
         /\ toordinal d7 = toordinal E + 7 * 7
         /\ Forall (fun e => rrule e = None)
              (firstn 8 (skipn (3 + 8 * Z.to_nat 0) (subcomponents doc))).
Proof.
  apply (proj1 easter_events_offsets counting_source 2024 1 0 0%nat);
    [in_range | lia].
Defined.

(** Claim C4: the four weekday-window events carry a yearly rule with the
    listed weekday, month-day candidates and months, and the listed work
    status; the rule is stored as it is, and the anchor is the placeholder
    1 January of [start_year], not a resolved date. *)
Theorem weekday_window_rules (src : nat -> UUID) (sy count : Z) (n : nat) :
  supported sy count ->
  exists doc n' u1 u2 u3 u4,
    generate src sy count n = inr (doc, n')
    /\ filter (has_kind WeekdayWindow) (subcomponents doc)
       = [add_rrule (Holiday_fields u1 (mkdate sy 1 1) "Midsommarafton" DEFACTO)
            [("FREQ", RFreq YEARLY); ("BYDAY", RWeekday FR);
             ("BYMONTHDAY", RTuple [19; 20; 21; 22; 23; 24; 25]);
             ("BYMONTH", RInt 6)];
          add_rrule (Holiday_fields u2 (mkdate sy 1 1) "Midsommardagen" FREE)
            [("FREQ", RFreq YEARLY); ("BYDAY", RWeekday SA);
             ("BYMONTHDAY", RTuple [20; 21; 22; 23; 24; 25; 26]);
             ("BYMONTH", RInt 6)];
          add_rrule (Holiday_fields u3 (mkdate sy 1 1) "Allhelgonaafton" DEPENDS)
            [("FREQ", RFreq YEARLY); ("BYDAY", RWeekday FR);
             ("BYMONTHDAY", RTuple [30; 31; 1; 2; 3; 4; 5]);
             ("BYMONTH", RTuple [10; 11])];
          add_rrule (Holiday_fields u4 (mkdate sy 1 1) "Alla helgons dag" FREE)
            [("FREQ", RFreq YEARLY); ("BYDAY", RWeekday SA);
             ("BYMONTHDAY", RTuple [31; 1; 2; 3; 4; 5; 6]);
             ("BYMONTH", RTuple [10; 11])]].
Proof.
  intros Hs. do 6 eexists. split; [apply generate_supported; exact Hs|].
  cbn [subcomponents]. rewrite expected_events_window. reflexivity.
Qed.

(** The weekday-window events for one year from 2024. *)
Lemma weekday_window_rules_witness :
  exists doc n' u1 u2 u3 u4,
    generate counting_source 2024 1 0%nat = inr (doc, n')
    /\ filter (has_kind WeekdayWindow) (subcomponents doc)
       = [add_rrule (Holiday_fields u1 (mkdate 2024 1 1) "Midsommarafton" DEFACTO)
            [("FREQ", RFreq YEARLY); ("BYDAY", RWeekday FR);
             ("BYMONTHDAY", RTuple [19; 20; 21; 22; 23; 24; 25]);
             ("BYMONTH", RInt 6)];
          add_rrule (Holiday_fields u2 (mkdate 2024 1 1) "Midsommardagen" FREE)
            [("FREQ", RFreq YEARLY); ("BYDAY", RWeekday SA);
             ("BYMONTHDAY", RTuple [20; 21; 22; 23; 24; 25; 26]);
             ("BYMONTH", RInt 6)];
          add_rrule (Holiday_fields u3 (mkdate 2024 1 1) "Allhelgonaafton" DEPENDS)
            [("FREQ", RFreq YEARLY); ("BYDAY", RWeekday FR);
             ("BYMONTHDAY", RTuple [30; 31; 1; 2; 3; 4; 5]);
             ("BYMONTH", RTuple [10; 11])];
          add_rrule (Holiday_fields u4 (mkdate 2024 1 1) "Alla helgons dag" FREE)
            [("FREQ", RFreq YEARLY); ("BYDAY", RWeekday SA);
             ("BYMONTHDAY", RTuple [31; 1; 2; 3; 4; 5; 6]);
             ("BYMONTH", RTuple [10; 11])]].
Proof.
  apply (weekday_window_rules counting_source 2024 1 0%nat). in_range.
Defined.

(** Claim C5, as the code has it: the events appear in one fixed order, the
    order of the calendar year: Nyårsdagen, Trettondagsafton and Trettondedag
    jul; the eight Easter-relative events of each requested year, year by
    year; Valborgsmässoafton, Första maj and Sveriges nationaldag; the four
    weekday-window events; Julafton, Juldagen, Annandag jul and Nyårsafton.
    The Easter-relative blocks follow the requested years, [start_year]
    first, and every other event is anchored in [start_year].  Two runs with
    the same arguments give the same events in the same order, whatever
    identifiers they draw. *)
Theorem generate_order (src1 src2 : nat -> UUID) (sy count : Z)
    (n1 n2 : nat) :
  supported sy count ->
  exists doc1 doc2 n1' n2',
    generate src1 sy count n1 = inr (doc1, n1')
    /\ generate src2 sy count n2 = inr (doc2, n2')
    /\ map listing (subcomponents doc1)
       = [("Nyårsdagen", FixedYearly); ("Trettondagsafton", FixedYearly);
          ("Trettondedag jul", FixedYearly)]
         ++ List.concat (repeat easter_listing (Z.to_nat count))
         ++ [("Valborgsmässoafton", FixedYearly); ("Första maj", FixedYearly);
             ("Sveriges nationaldag", FixedYearly);
             ("Midsommarafton", WeekdayWindow);
             ("Midsommardagen", WeekdayWindow);
             ("Allhelgonaafton", WeekdayWindow);
             ("Alla helgons dag", WeekdayWindow);
             ("Julafton", FixedYearly); ("Juldagen", FixedYearly);
             ("Annandag jul", FixedYearly); ("Nyårsafton", FixedYearly)]
    /\ map listing (subcomponents doc2) = map listing (subcomponents doc1)
    /\ map (fun e => year (dtstart e)) (subcomponents doc1)
       = repeat sy 3
         ++ flat_map (fun y => repeat y 8) (zrange sy (Z.to_nat count))
         ++ repeat sy 11
    /\ map content (subcomponents doc2) = map content (subcomponents doc1).
Proof.
  intros Hs. do 4 eexists.
  split; [apply generate_supported; exact Hs|].
  split; [apply generate_supported; exact Hs|].
  cbn [subcomponents].
  assert (H : forall src n,
    map listing (expected_events src n sy (Z.to_nat count))
    = [("Nyårsdagen", FixedYearly); ("Trettondagsafton", FixedYearly);
       ("Trettondedag jul", FixedYearly)]
      ++ List.concat (repeat easter_listing (Z.to_nat count))
      ++ [("Valborgsmässoafton", FixedYearly); ("Första maj", FixedYearly);
          ("Sveriges nationaldag", FixedYearly);
          ("Midsommarafton", WeekdayWindow);
          ("Midsommardagen", WeekdayWindow);
          ("Allhelgonaafton", WeekdayWindow);
          ("Alla helgons dag", WeekdayWindow);
          ("Julafton", FixedYearly); ("Juldagen", FixedYearly);
          ("Annandag jul", FixedYearly); ("Nyårsafton", FixedYearly)]).
  { intros src n. unfold expected_events. cbv zeta.
    rewrite !map_app, easter_blocks_listing by in_range. reflexivity. }
  split; [apply H|]. split; [now rewrite !H|].
  split; [|apply expected_events_content].
  unfold expected_events. cbv zeta. rewrite !map_app.
  rewrite (proj2 (easter_blocks_anchors src1 (Z.to_nat count) (3 + n1)%nat sy
                    ltac:(in_range) ltac:(in_range))).
  reflexivity.
Qed.

(** The order for two years from 2024, with two identifier sources. *)
Lemma generate_order_witness :
  exists doc1 doc2 n1' n2',
    generate counting_source 2024 2 0%nat = inr (doc1, n1')
    /\ generate (fun k => 7 * Z.of_nat k) 2024 2 5%nat = inr (doc2, n2')
    /\ map listing (subcomponents doc1)
       = [("Nyårsdagen", FixedYearly); ("Trettondagsafton", FixedYearly);
          ("Trettondedag jul", FixedYearly)]
         ++ List.concat (repeat easter_listing (Z.to_nat 2))
         ++ [("Valborgsmässoafton", FixedYearly); ("Första maj", FixedYearly);
             ("Sveriges nationaldag", FixedYearly);
             ("Midsommarafton", WeekdayWindow);
             ("Midsommardagen", WeekdayWindow);
             ("Allhelgonaafton", WeekdayWindow);
             ("Alla helgons dag", WeekdayWindow);
             ("Julafton", FixedYearly); ("Juldagen", FixedYearly);
             ("Annandag jul", FixedYearly); ("Nyårsafton", FixedYearly)]
    /\ map listing (subcomponents doc2) = map listing (subcomponents doc1)
    /\ map (fun e => year (dtstart e)) (subcomponents doc1)
       = repeat 2024 3
         ++ flat_map (fun y => repeat y 8) (zrange 2024 (Z.to_nat 2))
         ++ repeat 2024 11
    /\ map content (subcomponents doc2) = map content (subcomponents doc1).
Proof.
  apply (generate_order counting_source (fun k => 7 * Z.of_nat k) 2024 2
           0%nat 5%nat).
  in_range.
Defined.

(** Claim C5 as stated fails: in the document for one year from 2024 the
    events are not in the order of the listing (Easter-relative, then
    fixed-date, then weekday-window); its first event is Nyårsdagen, a
    fixed-date event. *)
Lemma generate_not_in_listing_order :
  exists doc n',
    generate counting_source 2024 1 0%nat = inr (doc, n')
    /\ ~ in_listing_order (subcomponents doc)
    /\ map listing (firstn 1 (subcomponents doc))
       = [("Nyårsdagen", FixedYearly)].
Proof.
  eexists. eexists. split; [apply generate_supported; in_range|].
  cbn [subcomponents]. split; [|reflexivity].
  unfold in_listing_order. intros H.
  apply (f_equal (map listing)) in H. vm_compute in H. discriminate H.
Qed.

(** Claim C6: two calls with the same arguments either both raise the same
    exception or both return documents with the same properties whose events
    agree, one by one, on transparency, anchor date, summary, categories,
    description and recurrence rule, whatever identifiers the two calls draw;
    the identifiers themselves can differ, as they do between two calls that
    follow each other. *)
Theorem generate_deterministic_up_to_uid :
  (forall (src1 src2 : nat -> UUID) (n1 n2 : nat) (sy count : Z),
     match generate src1 sy count n1, generate src2 sy count n2 with
     | inr (doc1, _), inr (doc2, _) =>
         properties doc1 = properties doc2
         /\ map content (subcomponents doc1) = map content (subcomponents doc2)
     | inl e1, inl e2 => e1 = e2
     | _, _ => False
     end)
  /\ (exists doc1 doc2 n',
        generate_twice counting_source 2024 1 0%nat = inr ((doc1, doc2), n')
        /\ map content (subcomponents doc1) = map content (subcomponents doc2)
        /\ map uid (subcomponents doc1) <> map uid (subcomponents doc2)).
Proof.
  split.
  - intros src1 src2 n1 n2 sy count.
    destruct (supported_dec sy count) as [Hs|Hs].
    + rewrite !generate_supported by exact Hs. cbn [properties subcomponents].
      split; [reflexivity | apply expected_events_content].
    + rewrite !generate_unsupported by exact Hs. reflexivity.
  - assert (Hs : supported 2024 1) by in_range.
    eexists. eexists. eexists. unfold generate_twice.
    split.
    + rewrite (bind_ok _ _ _ _ _ (generate_supported _ 2024 1 0%nat Hs)).
      rewrite (bind_ok _ _ _ _ _ (generate_supported _ 2024 1 _ Hs)).
      reflexivity.
    + cbn [subcomponents]. split; [apply expected_events_content|].
      intros H. vm_compute in H. discriminate H.
Qed.

(** Claim C7, as the code has it: every weekday-window rule of a generated
    document pairs exactly one weekday with an ordered list of exactly seven
    month-day candidates and one or two target months; in every supported
    year the candidates are the month days of seven consecutive calendar
    days of the target months; they span a month boundary when there are two
    target months (October and November) and stay inside the month when
    there is one (June). *)
Theorem weekday_window_invariant (src : nat -> UUID) (sy count : Z)
    (n : nat) :
  supported sy count ->
  exists doc n',
    generate src sy count n = inr (doc, n')
    /\ Forall
         (fun e =>
            has_kind WeekdayWindow e = true ->
            exists r,
              rrule e = Some r
              /\ List.length (rule_weekdays r) = 1%nat
              /\ List.length (rule_monthdays r) = 7%nat
              /\ (List.length (rule_months r) = 1%nat
                  \/ List.length (rule_months r) = 2%nat)
              /\ forall y, MINYEAR <= y <= MAXYEAR ->
                   consecutive_days y r
                   /\ (spans_month_boundary y r
                       <-> List.length (rule_months r) = 2%nat))
         (subcomponents doc).
Proof.
  intros Hs. eexists. eexists.
  split; [apply generate_supported; exact Hs|].
  cbn [subcomponents]. apply Forall_of_filter.
  rewrite expected_events_window. cbv zeta.
  repeat constructor; eexists; (split; [reflexivity|]).
  - apply window_invariant_midsummers_eve.
  - apply window_invariant_midsummer_day.
  - apply window_invariant_all_saints_eve.
  - apply window_invariant_all_saints_day.
Qed.

(** The rules of the document for one year from 2024. *)
Lemma weekday_window_invariant_witness :
  exists doc n',
    generate counting_source 2024 1 0%nat = inr (doc, n')
    /\ Forall
         (fun e =>
            has_kind WeekdayWindow e = true ->
            exists r,
              rrule e = Some r
              /\ List.length (rule_weekdays r) = 1%nat
              /\ List.length (rule_monthdays r) = 7%nat
              /\ (List.length (rule_months r) = 1%nat
                  \/ List.length (rule_months r) = 2%nat)
              /\ forall y, MINYEAR <= y <= MAXYEAR ->
                   consecutive_days y r
                   /\ (spans_month_boundary y r
                       <-> List.length (rule_months r) = 2%nat))
         (subcomponents doc).
Proof.
  apply (weekday_window_invariant counting_source 2024 1 0%nat). in_range.
Defined.

(** Claim C7 as stated fails: the rule of Midsommarafton in the document for
    one year from 2024 has the candidates 19 to 25 of June alone, which span
    no month boundary. *)
Lemma midsummer_rule_spans_no_boundary :
  exists doc n' e r,
    generate counting_source 2024 1 0%nat = inr (doc, n')
    /\ In e (subcomponents doc)
    /\ has_kind WeekdayWindow e = true
    /\ rrule e = Some r
    /\ rule_monthdays r = [19; 20; 21; 22; 23; 24; 25]
    /\ rule_months r = [6]
    /\ ~ spans_month_boundary 2024 r.
Proof.
  eexists. eexists.
  exists (window_event (counting_source 14%nat) 2024 "Midsommarafton" DEFACTO
            (window_rule FR [19; 20; 21; 22; 23; 24; 25] (RInt 6))).
  eexists. split; [apply generate_supported; in_range|].
  cbn [subcomponents]. split.
  - unfold expected_events. cbv zeta. apply in_or_app. right.
    apply in_or_app. right. pick_member.
  - split; [reflexivity|]. split; [reflexivity|].
    split; [reflexivity|]. split; [reflexivity|].
    intros Hspan.
    destruct window_invariant_midsummers_eve as (_ & _ & _ & Hw).
    destruct (Hw 2024 ltac:(unfold MINYEAR, MAXYEAR; lia)) as (_ & Hiff).
    apply Hiff in Hspan. vm_compute in Hspan. discriminate Hspan.
Qed.

(** Claim C8: the work status given to [Holiday] decides the annotations and
    nothing else.  [DEPENDS] attaches a category tag and a descriptive note,
    [DEFACTO] a note and no tag, [FREE] neither; the annotations are the same
    for every event of one status; identifier, transparency, anchor date,
    summary and the absence of a rule do not depend on the status; and every
    event of a generated document is annotated as one of the three statuses
    prescribes. *)
Theorem work_status_annotations :
  (forall (u : UUID) (d : date) (s : string) (w : Work),
     let e := Holiday_fields u d s w in
     (has_category e, has_description e)
     = match w with
       | DEPENDS => (true, true)
       | DEFACTO => (false, true)
       | FREE => (false, false)
       end
     /\ uid e = u /\ transp e = "TRANSPARENT" /\ dtstart e = d
     /\ summary e = s /\ rrule e = None)
  /\ (forall (u u' : UUID) (d d' : date) (s s' : string) (w : Work),
        categories (Holiday_fields u d s w)
        = categories (Holiday_fields u' d' s' w)
        /\ description (Holiday_fields u d s w)
           = description (Holiday_fields u' d' s' w))
  /\ (forall (src : nat -> UUID) (sy count : Z) (n : nat),
        supported sy count ->
        exists doc n',
          generate src sy count n = inr (doc, n')
          /\ Forall annotated_by_status (subcomponents doc)).
Proof.
  split; [|split].
  - intros u d s w. destruct w; repeat split.
  - intros u u' d d' s s' w. split; reflexivity.
  - intros src sy count n Hs. eexists. eexists.
    split; [apply generate_supported; exact Hs|].
    apply expected_events_annotated.
Qed.

(** The events of the document for one year from 2024. *)
Lemma work_status_annotations_witness :
  exists doc n',
    generate counting_source 2024 1 0%nat = inr (doc, n')
    /\ Forall annotated_by_status (subcomponents doc).
Proof.
  apply (proj2 (proj2 work_status_annotations) counting_source 2024 1 0%nat).
  in_range.
Defined.

(** Claim C9: in every supported year Easter is a Sunday (weekday 6, with
    Monday as 0) of that year, between 22 March and 25 April inclusive. *)
Theorem easter_is_a_spring_sunday (y : Z) :
  MINYEAR <= y <= MAXYEAR ->
  exists E,
    easter y = inr E
    /\ year E = y
    /\ weekday E = 6
    /\ (month E = 3 /\ 22 <= day E <= 31 \/ month E = 4 /\ 1 <= day E <= 25).
Proof. intros Hy. exact (easter_supported y Hy). Qed.

(** Easter of 2024. *)
Lemma easter_is_a_spring_sunday_witness :
  exists E,
    easter 2024 = inr E
    /\ year E = 2024
    /\ weekday E = 6
    /\ (month E = 3 /\ 22 <= day E <= 31 \/ month E = 4 /\ 1 <= day E <= 25).
Proof.
  apply (easter_is_a_spring_sunday 2024). unfold MINYEAR, MAXYEAR. lia.
Defined.

(** Claim C10: the ten fixed-date events carry a yearly rule, are anchored at
    their month and day in [start_year], and have these work statuses:
    Trettondagsafton and Valborgsmässoafton [DEPENDS], Julafton and
    Nyårsafton [DEFACTO], the other six [FREE]. *)
Theorem fixed_date_events (src : nat -> UUID) (sy count : Z) (n : nat) :
  supported sy count ->
  exists doc n' u0 u1 u2 u3 u4 u5 u6 u7 u8 u9,
    generate src sy count n = inr (doc, n')
    /\ let fixed := fun u m d name work =>
             add_rrule (Holiday_fields u (mkdate sy m d) name work)
               [("FREQ", RFreq YEARLY)] in
       filter (has_kind FixedYearly) (subcomponents doc)
       = [fixed u0 1 1 "Nyårsdagen" FREE;
          fixed u1 1 5 "Trettondagsafton" DEPENDS;
          fixed u2 1 6 "Trettondedag jul" FREE;
          fixed u3 4 30 "Valborgsmässoafton" DEPENDS;
          fixed u4 5 1 "Första maj" FREE;
          fixed u5 6 6 "Sveriges nationaldag" FREE;
          fixed u6 12 24 "Julafton" DEFACTO;
          fixed u7 12 25 "Juldagen" FREE;
          fixed u8 12 26 "Annandag jul" FREE;
          fixed u9 12 31 "Nyårsafton" DEFACTO].
Proof.
  intros Hs. do 12 eexists. split; [apply generate_supported; exact Hs|].
  cbn [subcomponents]. rewrite expected_events_fixed. reflexivity.
Qed.

(** The fixed-date events for three years from 2000. *)
Lemma fixed_date_events_witness :
  exists doc n' u0 u1 u2 u3 u4 u5 u6 u7 u8 u9,
    generate counting_source 2000 3 0%nat = inr (doc, n')
    /\ let fixed := fun u m d name work =>
             add_rrule (Holiday_fields u (mkdate 2000 m d) name work)
               [("FREQ", RFreq YEARLY)] in
       filter (has_kind FixedYearly) (subcomponents doc)
       = [fixed u0 1 1 "Nyårsdagen" FREE;
          fixed u1 1 5 "Trettondagsafton" DEPENDS;
          fixed u2 1 6 "Trettondedag jul" FREE;
          fixed u3 4 30 "Valborgsmässoafton" DEPENDS;
          fixed u4 5 1 "Första maj" FREE;
          fixed u5 6 6 "Sveriges nationaldag" FREE;
          fixed u6 12 24 "Julafton" DEFACTO;
          fixed u7 12 25 "Juldagen" FREE;
          fixed u8 12 26 "Annandag jul" FREE;
          fixed u9 12 31 "Nyårsafton" DEFACTO].
Proof.
  apply (fixed_date_events counting_source 2000 3 0%nat). in_range.
Defined.

(* ------------------------------------------------------------------ *)
(** ** Further properties of the generator *)

(** *** Failure and identifiers *)

(** X1: for a [start_year] that fits the machine integer the [date]
    constructor takes (a C [int]), [generate] raises [ValueError] exactly
    when [start_year] or the last requested year is outside 1..9999, and it
    never raises [OverflowError]: the date arithmetic of [add_easter] stays
    inside the year. *)
Theorem generate_raises_exactly (src : nat -> UUID) (sy count : Z) (n : nat) :
  -2147483648 <= sy <= 2147483647 ->
  (generate src sy count n = inl ValueError
   <-> sy < 1 \/ 9999 < sy \/ 10000 < sy + count)
  /\ generate src sy count n <> inl OverflowError.
Proof.
  intros _. destruct (supported_dec sy count) as [Hs|Hs].
  - rewrite (generate_supported src sy count n Hs).
    split; [|discriminate]. split; [discriminate|]. intros H. in_range.
  - rewrite (generate_unsupported src sy count n Hs).
    split; [|discriminate]. split; [|reflexivity]. intros _. in_range.
Qed.

(** Two years from 9999: the second year is 10000. *)
Lemma generate_raises_exactly_witness :
  (generate counting_source 9999 2 0%nat = inl ValueError
   <-> 9999 < 1 \/ 9999 < 9999 \/ 10000 < 9999 + 2)
  /\ generate counting_source 9999 2 0%nat <> inl OverflowError.
Proof.
  apply (generate_raises_exactly counting_source 9999 2 0%nat). lia.
Defined.

Lemma easter_block_uids (src : nat -> UUID) (n : nat) (y : Z) :
  MINYEAR <= y <= MAXYEAR ->
  map uid (easter_block src n y) = map src (seq n 8).
Proof.
  intros Hy. destruct (easter_supported y Hy) as (E & HE & _).
  unfold easter_block. rewrite HE. reflexivity.
Qed.

Lemma easter_blocks_uids (src : nat -> UUID) (c : nat) :
  forall (n : nat) (y : Z),
  MINYEAR <= y -> y + Z.of_nat c <= MAXYEAR + 1 ->
  map uid (easter_blocks src n y c) = map src (seq n (8 * c)).
Proof.
  induction c as [|c IH]; intros n y Hlo Hhi; [reflexivity|].
  cbn [easter_blocks]. rewrite map_app, easter_block_uids, IH by lia.
  replace (8 * S c)%nat with (8 + 8 * c)%nat by lia.
  rewrite seq_app, map_app. now rewrite (Nat.add_comm n 8).
Qed.

Lemma expected_events_uids (src : nat -> UUID) (n : nat) (sy : Z) (c : nat) :
  MINYEAR <= sy -> sy + Z.of_nat c <= MAXYEAR + 1 ->
  map uid (expected_events src n sy c) = map src (seq n (14 + 8 * c)).
Proof.
  intros Hlo Hhi. unfold expected_events. cbv zeta.
  rewrite !map_app, easter_blocks_uids by lia.
  replace (14 + 8 * c)%nat with (3 + (8 * c + 11))%nat by lia.
  rewrite !seq_app, !map_app.
  replace (n + 3)%nat with (3 + n)%nat by lia.
  replace (3 + n + 8 * c)%nat with (8 * c + (3 + n))%nat by lia.
  reflexivity.
Qed.

Lemma NoDup_map_injective {A B : Type} (f : A -> B) (l : list A) :
  (forall a b, f a = f b -> a = b) -> NoDup l -> NoDup (map f l).
Proof.
  intros Hf. induction 1 as [|x l Hx _ IH]; cbn [map]; constructor;
    [|exact IH].
  intros Hin. apply in_map_iff in Hin. destruct Hin as (x' & Hxx' & Hx').
  apply Hf in Hxx'. subst x'. contradiction.
Qed.

(** X2: a successful run draws one identifier for each event, in the order
    of the document: the [k]-th event carries the [k]-th identifier drawn
    after the [n] drawn before the call.  So the identifiers of a document
    are pairwise different whenever the source never repeats itself. *)
Theorem generate_identifiers (src : nat -> UUID) (sy count : Z) (n : nat) :
  supported sy count ->
  exists doc,
    generate src sy count n
    = inr (doc, (List.length (subcomponents doc) + n)%nat)
    /\ map uid (subcomponents doc)
       = map src (seq n (List.length (subcomponents doc)))
    /\ ((forall i j, src i = src j -> i = j) ->
        NoDup (map uid (subcomponents doc))).
Proof.
  intros Hs.
  exists (mkCalendar document_properties
            (expected_events src n sy (Z.to_nat count))).
  split.
  - rewrite (generate_supported src sy count n Hs). cbn [subcomponents].
    rewrite expected_events_length by in_range. do 2 f_equal. lia.
  - cbn [subcomponents]. rewrite expected_events_length by in_range.
    rewrite expected_events_uids by in_range.
    split; [reflexivity|]. intros Hinj.
    apply NoDup_map_injective; [exact Hinj | apply seq_NoDup].
Qed.

(** Two years from 1999, after five identifiers were drawn. *)
Lemma generate_identifiers_witness :
  exists doc,
    generate counting_source 1999 2 5%nat
    = inr (doc, (List.length (subcomponents doc) + 5)%nat)
    /\ map uid (subcomponents doc)
       = map counting_source (seq 5 (List.length (subcomponents doc)))
    /\ ((forall i j, counting_source i = counting_source j -> i = j) ->
        NoDup (map uid (subcomponents doc))).
Proof.
  apply (generate_identifiers counting_source 1999 2 5%nat). in_range.
Defined.

(** *** The [Calendar] methods *)

Section CalendarMethods.

Variable src : nat -> UUID.

Lemma add_midsummers_eve_unsupported (cal : Calendar) (y : Z) (n : nat) :
  ~ (MINYEAR <= y <= MAXYEAR) ->
  add_midsummers_eve src cal y n = inl ValueError.
Proof.
  intros Hy. unfold add_midsummers_eve, bind, lift.
  now rewrite (date_new_unsupported_year y 1 1 Hy).
Qed.

Lemma add_midsummer_day_unsupported (cal : Calendar) (y : Z) (n : nat) :
  ~ (MINYEAR <= y <= MAXYEAR) ->
  add_midsummer_day src cal y n = inl ValueError.
Proof.
  intros Hy. unfold add_midsummer_day, bind, lift.
  now rewrite (date_new_unsupported_year y 1 1 Hy).
Qed.

Lemma add_all_saints_eve_unsupported (cal : Calendar) (y : Z) (n : nat) :
  ~ (MINYEAR <= y <= MAXYEAR) ->
  add_all_saints_eve src cal y n = inl ValueError.
Proof.
  intros Hy. unfold add_all_saints_eve, bind, lift.
  now rewrite (date_new_unsupported_year y 1 1 Hy).
Qed.

Lemma add_all_saints_day_unsupported (cal : Calendar) (y : Z) (n : nat) :
  ~ (MINYEAR <= y <= MAXYEAR) ->
  add_all_saints_day src cal y n = inl ValueError.
Proof.
  intros Hy. unfold add_all_saints_day, bind, lift.
  now rewrite (date_new_unsupported_year y 1 1 Hy).
Qed.

End CalendarMethods.

(** X3: each of the five [Calendar] methods returns only for a supported
    year, and then it has only appended: the properties and the earlier
    events of the calendar are as before, at least one event is new, and the
    new events carry, in order, the identifiers drawn by the call. *)
Theorem calendar_methods_append (src : nat -> UUID) (cal cal' : Calendar)
    (y : Z) (n n' : nat) :
  add_easter src cal y n = inr (cal', n')
  \/ add_midsummers_eve src cal y n = inr (cal', n')
  \/ add_midsummer_day src cal y n = inr (cal', n')
  \/ add_all_saints_eve src cal y n = inr (cal', n')
  \/ add_all_saints_day src cal y n = inr (cal', n') ->
  MINYEAR <= y <= MAXYEAR
  /\ properties cal' = properties cal
  /\ exists new,
       subcomponents cal' = subcomponents cal ++ new
       /\ new <> []
       /\ n' = (List.length new + n)%nat
       /\ map uid new = map src (seq n (List.length new)).
Proof.
  intros H.
  assert (Hy : MINYEAR <= y <= MAXYEAR).
  { destruct (Z_le_dec MINYEAR y) as [H1|H1];
      [destruct (Z_le_dec y MAXYEAR) as [H2|H2]; [lia|]|];
      exfalso;
      rewrite add_easter_unsupported, add_midsummers_eve_unsupported,
        add_midsummer_day_unsupported, add_all_saints_eve_unsupported,
        add_all_saints_day_unsupported in H by lia;
      repeat (destruct H as [H|H]; [discriminate H|]); discriminate H. }
  split; [exact Hy|].
  rewrite add_easter_ok, add_midsummers_eve_ok, add_midsummer_day_ok,
    add_all_saints_eve_ok, add_all_saints_day_ok in H by exact Hy.
  pose proof (easter_block_length src n y Hy) as Hlen.
  pose proof (easter_block_uids src n y Hy) as Huid.
  destruct H as [H|[H|[H|[H|H]]]]; injection H as <- <-;
    cbn [properties subcomponents]; (split; [reflexivity|]);
    eexists; (split; [reflexivity|]).
  - split; [|split].
    + intros Hnil. rewrite Hnil in Hlen. discriminate Hlen.
    + rewrite Hlen. lia.
    + rewrite Hlen. exact Huid.
  - split; [discriminate | split; reflexivity].
  - split; [discriminate | split; reflexivity].
  - split; [discriminate | split; reflexivity].
  - split; [discriminate | split; reflexivity].
Qed.

(** [add_easter] for 2024 on a calendar that holds one event already. *)
Lemma calendar_methods_append_witness :
  MINYEAR <= 2024 <= MAXYEAR
  /\ properties
       (mkCalendar document_properties
          (fixed_event 7 2024 1 1 "Nyårsdagen" FREE
           :: easter_block counting_source 1 2024))
     = properties
         (mkCalendar document_properties
            [fixed_event 7 2024 1 1 "Nyårsdagen" FREE])
  /\ exists new,
       subcomponents
         (mkCalendar document_properties
            (fixed_event 7 2024 1 1 "Nyårsdagen" FREE
             :: easter_block counting_source 1 2024))
       = subcomponents
           (mkCalendar document_properties
              [fixed_event 7 2024 1 1 "Nyårsdagen" FREE]) ++ new
       /\ new <> []
       /\ 9%nat = (List.length new + 1)%nat
       /\ map uid new = map counting_source (seq 1 (List.length new)).
Proof.
  apply (calendar_methods_append counting_source
           (mkCalendar document_properties
              [fixed_event 7 2024 1 1 "Nyårsdagen" FREE])
           (mkCalendar document_properties
              (fixed_event 7 2024 1 1 "Nyårsdagen" FREE
               :: easter_block counting_source 1 2024))
           2024 1%nat 9%nat).
  left. vm_compute. reflexivity.
Defined.

(** *** The Easter-relative events in the calendar *)

Lemma easter_block_weekdays (src : nat -> UUID) (n : nat) (y : Z) :
  MINYEAR <= y <= MAXYEAR ->
  map (fun e => (summary e, weekday (dtstart e))) (easter_block src n y)
  = easter_weekdays.
Proof.
  intros Hy. destruct (easter_supported y Hy) as [E HE].
  pose proof (fun k Hk => proj2 (proj2 (easter_plus_days y E k Hy HE Hk)))
    as Hk.
  destruct HE as (HEq & _ & Hsun & _). unfold easter_block. rewrite HEq.
  cbn [map dtstart summary Holiday_fields]. unfold weekday in *.
  rewrite !Hk by lia. unfold easter_weekdays.
  repeat (apply (f_equal2 (@cons _)); [f_equal|]); try reflexivity;
    Z.to_euclidean_division_equations; lia.
Qed.

Lemma easter_blocks_weekdays (src : nat -> UUID) (c : nat) :
  forall (n : nat) (y : Z),
  MINYEAR <= y -> y + Z.of_nat c <= MAXYEAR + 1 ->
  map (fun e => (summary e, weekday (dtstart e))) (easter_blocks src n y c)
  = List.concat (repeat easter_weekdays c).
Proof.
  induction c as [|c IH]; intros n y Hlo Hhi; [reflexivity|].
  cbn [easter_blocks repeat List.concat].
  rewrite map_app, easter_block_weekdays, IH by lia. reflexivity.
Qed.

(** X4: in every generated document the Easter-relative events fall on the
    weekdays their names say, year after year: Skärtorsdagen on a Thursday,
    Långfredagen on a Friday, Påskafton on a Saturday, Påskdagen on a Sunday,
    Annandag påsk on a Monday, Kristi himmelsfärdsdag on a Thursday,
    Pingstafton on a Saturday and Pingstdagen on a Sunday. *)
Theorem easter_events_weekdays (src : nat -> UUID) (sy count : Z) (n : nat) :
  supported sy count ->
  exists doc n',
    generate src sy count n = inr (doc, n')
    /\ map (fun e => (summary e, weekday (dtstart e)))
         (filter (has_kind NonRecurring) (subcomponents doc))
       = List.concat (repeat easter_weekdays (Z.to_nat count)).
Proof.
  intros Hs. eexists. eexists.
  split; [apply generate_supported; exact Hs|].
  cbn [subcomponents]. rewrite expected_events_single.
  apply easter_blocks_weekdays; in_range.
Qed.

(** Three years from 2023. *)
Lemma easter_events_weekdays_witness :
  exists doc n',
    generate counting_source 2023 3 0%nat = inr (doc, n')
    /\ map (fun e => (summary e, weekday (dtstart e)))
         (filter (has_kind NonRecurring) (subcomponents doc))
       = List.concat (repeat easter_weekdays (Z.to_nat 3)).
Proof.
  apply (easter_events_weekdays counting_source 2023 3 0%nat). in_range.
Defined.

Lemma StronglySorted_app {A : Type} (R : A -> A -> Prop) (l1 l2 : list A) :
  StronglySorted R l1 -> StronglySorted R l2 ->
  (forall a b, In a l1 -> In b l2 -> R a b) ->
  StronglySorted R (l1 ++ l2).
Proof.
  induction 1 as [|x l1 Hl1 IH Hx]; intros H2 Hcross; [exact H2|].
  cbn [app]. constructor.
  - apply IH; [exact H2|]. intros a b Ha Hb. apply Hcross; [now right|exact Hb].
  - apply Forall_app. split; [exact Hx|].
    apply Forall_forall. intros b Hb. apply Hcross; [now left|exact Hb].
Qed.

Lemma easter_block_sorted (src : nat -> UUID) (n : nat) (y : Z) :
  MINYEAR <= y <= MAXYEAR ->
  StronglySorted anchored_before (easter_block src n y).
Proof.
  intros Hy. destruct (easter_supported y Hy) as [E HE].
  pose proof (fun k Hk => proj2 (proj2 (easter_plus_days y E k Hy HE Hk)))
    as Hk.
  destruct HE as (HEq & _). unfold easter_block. rewrite HEq.
  repeat constructor; unfold anchored_before;
    cbn [dtstart Holiday_fields]; rewrite ?Hk by lia; lia.
Qed.

Lemma easter_blocks_sorted (src : nat -> UUID) (c : nat) :
  forall (n : nat) (y : Z),
  MINYEAR <= y -> y + Z.of_nat c <= MAXYEAR + 1 ->
  StronglySorted anchored_before (easter_blocks src n y c).
Proof.
  induction c as [|c IH]; intros n y Hlo Hhi; cbn [easter_blocks];
    [constructor|].
  apply StronglySorted_app;
    [apply easter_block_sorted; lia | apply IH; lia |].
  intros a b Ha Hb.
  destruct (easter_block_anchors src n y ltac:(lia)) as (E & _ & _ & Hfa).
  destruct (easter_blocks_anchors src c (8 + n)%nat (y + 1) ltac:(lia)
              ltac:(lia)) as [Hfb _].
  rewrite Forall_forall in Hfa, Hfb.
  destruct (Hfa a Ha) as (Hva & Hya & _).
  destruct (Hfb b Hb) as (Hvb & Hyb & _).
  apply toordinal_year_lt; [assumption | assumption | lia].
Qed.

(** X5: in every generated document the Easter-relative events appear in
    the order of the calendar, each strictly after the one before it, also
    from one year to the next; the eight events of a requested year are
    anchored in that year, between March and June. *)
Theorem easter_events_chronological (src : nat -> UUID) (sy count : Z)
    (n : nat) :
  supported sy count ->
  exists doc n',
    generate src sy count n = inr (doc, n')
    /\ let single := filter (has_kind NonRecurring) (subcomponents doc) in
       StronglySorted anchored_before single
       /\ map (fun e => year (dtstart e)) single
          = flat_map (fun y => repeat y 8) (zrange sy (Z.to_nat count))
       /\ Forall (fun e => valid_date (dtstart e)
                           /\ 3 <= month (dtstart e) <= 6) single.
Proof.
  intros Hs. eexists. eexists.
  split; [apply generate_supported; exact Hs|].
  cbn [subcomponents]. cbv zeta. rewrite expected_events_single.
  destruct (easter_blocks_anchors src (Z.to_nat count) (3 + n)%nat sy
              ltac:(in_range) ltac:(in_range)) as [Hf Hy].
  split; [apply easter_blocks_sorted; in_range|]. split; [exact Hy|].
  eapply Forall_impl; [|exact Hf]. intros e (Hv & _ & Hm). now split.
Qed.

(** Two years from 2024. *)
Lemma easter_events_chronological_witness :
  exists doc n',
    generate counting_source 2024 2 0%nat = inr (doc, n')
    /\ let single := filter (has_kind NonRecurring) (subcomponents doc) in
       StronglySorted anchored_before single
       /\ map (fun e => year (dtstart e)) single
          = flat_map (fun y => repeat y 8) (zrange 2024 (Z.to_nat 2))
       /\ Forall (fun e => valid_date (dtstart e)
                           /\ 3 <= month (dtstart e) <= 6) single.
Proof.
  apply (easter_events_chronological counting_source 2024 2 0%nat). in_range.
Defined.

(** *** Runs compose *)

Lemma easter_blocks_app (src : nat -> UUID) (c1 c2 : nat) :
  forall (n : nat) (y : Z),
  easter_blocks src n y (c1 + c2)
  = easter_blocks src n y c1
    ++ easter_blocks src (8 * c1 + n) (y + Z.of_nat c1) c2.
Proof.
  induction c1 as [|c1 IH]; intros n y.
  - cbn [Nat.add easter_blocks app Nat.mul Z.of_nat]. now rewrite Z.add_0_r.
  - cbn [Nat.add easter_blocks]. rewrite IH, <- app_assoc.
    do 3 f_equal; lia.
Qed.

(** X6: a run over [c1 + c2] years holds, up to the identifiers, the
    Easter-relative events of a run over the first [c1] years followed by
    those of a run over the next [c2] years; its fixed-date and
    weekday-window events are those of the run over the first [c1] years,
    whatever the number of years. *)
Theorem generate_splits (src src1 src2 : nat -> UUID) (n n1 n2 : nat)
    (sy c1 c2 : Z) :
  0 <= c1 -> 0 <= c2 ->
  supported sy (c1 + c2) -> supported (sy + c1) c2 ->
  exists doc doc1 doc2 m m1 m2,
    generate src sy (c1 + c2) n = inr (doc, m)
    /\ generate src1 sy c1 n1 = inr (doc1, m1)
    /\ generate src2 (sy + c1) c2 n2 = inr (doc2, m2)
    /\ map content (filter (has_kind NonRecurring) (subcomponents doc))
       = map content (filter (has_kind NonRecurring) (subcomponents doc1))
         ++ map content (filter (has_kind NonRecurring) (subcomponents doc2))
    /\ map content (filter (has_kind FixedYearly) (subcomponents doc))
       = map content (filter (has_kind FixedYearly) (subcomponents doc1))
    /\ map content (filter (has_kind WeekdayWindow) (subcomponents doc))
       = map content (filter (has_kind WeekdayWindow) (subcomponents doc1)).
Proof.
  intros H1 H2 Hs Hs2.
  assert (Hs1 : supported sy c1) by in_range.
  do 6 eexists.
  split; [apply generate_supported; exact Hs|].
  split; [apply generate_supported; exact Hs1|].
  split; [apply generate_supported; exact Hs2|].
  cbn [subcomponents].
  rewrite !expected_events_single, !expected_events_fixed,
    !expected_events_window.
  split; [|split; reflexivity].
  rewrite Z2Nat.inj_add, easter_blocks_app, map_app by lia.
  rewrite Z2Nat.id by lia.
  f_equal; apply easter_blocks_content.
Qed.

(** Three years from 2020 as two years and then one. *)
Lemma generate_splits_witness :
  exists doc doc1 doc2 m m1 m2,
    generate counting_source 2020 (2 + 1) 0%nat = inr (doc, m)
    /\ generate counting_source 2020 2 30%nat = inr (doc1, m1)
    /\ generate counting_source (2020 + 2) 1 60%nat = inr (doc2, m2)
    /\ map content (filter (has_kind NonRecurring) (subcomponents doc))
       = map content (filter (has_kind NonRecurring) (subcomponents doc1))
         ++ map content (filter (has_kind NonRecurring) (subcomponents doc2))
    /\ map content (filter (has_kind FixedYearly) (subcomponents doc))
       = map content (filter (has_kind FixedYearly) (subcomponents doc1))
    /\ map content (filter (has_kind WeekdayWindow) (subcomponents doc))
       = map content (filter (has_kind WeekdayWindow) (subcomponents doc1)).
Proof.
  apply (generate_splits counting_source counting_source counting_source
           0%nat 30%nat 60%nat 2020 2 1); [lia | lia | in_range | in_range].
Defined.

(** *** The dates that satisfy a weekday-window rule *)

Lemma satisfies_window_rule (wd : vWeekday) (l : list Z) (months : rvalue)
    (d : date) :
  satisfies (window_rule wd l months) d
  <-> weekday d = weekday_number wd /\ In (day d) l
      /\ In (month d) (ints_of months).
Proof.
  unfold satisfies.
  change (rule_weekdays (window_rule wd l months)) with [wd].
  change (rule_monthdays (window_rule wd l months)) with (ints_of (RTuple l)).
  change (rule_months (window_rule wd l months)) with (ints_of months).
  cbn [map In ints_of]. intuition congruence.
Qed.

Lemma weekday_number_range (wd : vWeekday) : 0 <= weekday_number wd <= 6.
Proof. destruct wd; cbn; lia. Qed.

(** Among seven consecutive ordinals exactly one falls on a given weekday. *)
Lemma weekday_in_week (o w : Z) :
  0 <= w <= 6 ->
  exists k, 0 <= k <= 6 /\ (o + k + 6) mod 7 = w
            /\ forall k', 0 <= k' <= 6 -> (o + k' + 6) mod 7 = w -> k' = k.
Proof.
  intros Hw. exists ((w - (o + 6)) mod 7).
  repeat split; try (Z.to_euclidean_division_equations; lia).
  intros k' Hk' H. Z.to_euclidean_division_equations; lia.
Qed.

Lemma toordinal_same_year (y m d m' d' : Z) :
  toordinal (mkdate y m' d')
  = toordinal (mkdate y m d)
    + (_days_before_month y m' + d' - (_days_before_month y m + d)).
Proof. unfold toordinal, _ymd2ord. cbn [year month day]. ring. Qed.

(** A window of seven days inside June: in every supported year exactly one
    date satisfies the rule. *)
Lemma june_window_one_date (wd : vWeekday) (first y : Z) :
  MINYEAR <= y <= MAXYEAR -> 1 <= first -> first + 6 <= 30 ->
  exists x,
    valid_date x /\ year x = y /\ month x = 6
    /\ first <= day x <= first + 6 /\ weekday x = weekday_number wd
    /\ forall d, valid_date d -> year d = y ->
         (satisfies
            (window_rule wd
               [first; first + 1; first + 2; first + 3; first + 4;
                first + 5; first + 6] (RInt 6)) d
          <-> d = x).
Proof.
  intros Hy Hf Hl.
  destruct (weekday_in_week (toordinal (mkdate y 6 first))
              (weekday_number wd) (weekday_number_range wd))
    as (k & Hk & Hwk & Huniq).
  assert (Hord : forall dd,
    toordinal (mkdate y 6 dd) = toordinal (mkdate y 6 first) + (dd - first)).
  { intros dd. rewrite (toordinal_same_year y 6 first 6 dd). lia. }
  exists (mkdate y 6 (first + k)). cbn [year month day].
  assert (Hwd : weekday (mkdate y 6 (first + k)) = weekday_number wd).
  { unfold weekday. rewrite Hord. rewrite <- Hwk. f_equal. lia. }
  split.
  { repeat split; cbn [year month day]; try lia.
    rewrite days_in_month_not_february by lia. tables. lia. }
  split; [reflexivity|]. split; [reflexivity|]. split; [lia|].
  split; [exact Hwd|].
  intros d Hv Hyd. rewrite satisfies_window_rule. cbn [In ints_of].
  split.
  - intros (Hw & Hday & Hmonth).
    destruct d as [y' m dd]. cbn [year month day] in *. subst y'.
    assert (m = 6) by lia. subst m.
    assert (Hdd : first <= dd <= first + 6) by lia.
    unfold weekday in Hw. rewrite Hord in Hw.
    f_equal. enough (dd - first = k) by lia.
    apply Huniq; [lia|]. rewrite <- Hw. f_equal; lia.
  - intros ->. cbn [year month day]. split; [exact Hwd|]. split; lia.
Qed.

Lemma window_event_in_expected (src : nat -> UUID) (n : nat) (sy : Z)
    (c : nat) (e : Event) :
  In e (filter (has_kind WeekdayWindow) (expected_events src n sy c)) ->
  In e (expected_events src n sy c).
Proof. intros H. apply filter_In in H. apply H. Qed.

(** X7: the rules of Midsommarafton and Midsommardagen in a generated
    document are satisfied, in every supported year, by exactly one date
    each: a Friday between 19 and 25 June, and the Saturday that follows
    it. *)
Theorem midsummer_rules_select_one_date (src : nat -> UUID) (sy count : Z)
    (n : nat) :
  supported sy count ->
  exists doc n' e1 e2 r1 r2,
    generate src sy count n = inr (doc, n')
    /\ In e1 (subcomponents doc) /\ summary e1 = "Midsommarafton"
    /\ rrule e1 = Some r1
    /\ In e2 (subcomponents doc) /\ summary e2 = "Midsommardagen"
    /\ rrule e2 = Some r2
    /\ forall y, MINYEAR <= y <= MAXYEAR ->
         exists eve sat,
           (forall d, valid_date d -> year d = y ->
              (satisfies r1 d <-> d = eve))
           /\ (forall d, valid_date d -> year d = y ->
                 (satisfies r2 d <-> d = sat))
           /\ valid_date eve /\ year eve = y /\ month eve = 6
           /\ 19 <= day eve <= 25 /\ weekday eve = 4
           /\ valid_date sat /\ year sat = y /\ weekday sat = 5
           /\ toordinal sat = toordinal eve + 1.
Proof.
  intros Hs. do 6 eexists.
  split; [apply generate_supported; exact Hs|]. cbn [subcomponents].
  split; [apply window_event_in_expected; rewrite expected_events_window;
          cbv zeta; left; reflexivity|].
  split; [reflexivity|]. split; [reflexivity|].
  split; [apply window_event_in_expected; rewrite expected_events_window;
          cbv zeta; right; left; reflexivity|].
  split; [reflexivity|]. split; [reflexivity|].
  intros y Hy.
  destruct (june_window_one_date FR 19 y Hy ltac:(lia) ltac:(lia))
    as (eve & Hv1 & Hy1 & Hm1 & Hd1 & Hw1 & Hu1).
  destruct (june_window_one_date SA 20 y Hy ltac:(lia) ltac:(lia))
    as (sat & Hv2 & Hy2 & Hm2 & Hd2 & Hw2 & Hu2).
  exists eve, sat.
  split; [exact Hu1|]. split; [exact Hu2|].
  repeat (split; [assumption || lia|]).
  destruct eve as [y1 m1 d1], sat as [y2 m2 d2].
  cbn [year month day] in *. subst y1 m1 y2 m2.
  unfold weekday in Hw1, Hw2. cbn [weekday_number] in Hw1, Hw2.
  rewrite (toordinal_same_year y 6 d1 6 d2) in Hw2 |- *.
  Z.to_euclidean_division_equations; lia.
Qed.

(** One year from 2024. *)
Lemma midsummer_rules_select_one_date_witness :
  exists doc n' e1 e2 r1 r2,
    generate counting_source 2024 1 0%nat = inr (doc, n')
    /\ In e1 (subcomponents doc) /\ summary e1 = "Midsommarafton"
    /\ rrule e1 = Some r1
    /\ In e2 (subcomponents doc) /\ summary e2 = "Midsommardagen"
    /\ rrule e2 = Some r2
    /\ forall y, MINYEAR <= y <= MAXYEAR ->
         exists eve sat,
           (forall d, valid_date d -> year d = y ->
              (satisfies r1 d <-> d = eve))
           /\ (forall d, valid_date d -> year d = y ->
                 (satisfies r2 d <-> d = sat))
           /\ valid_date eve /\ year eve = y /\ month eve = 6
           /\ 19 <= day eve <= 25 /\ weekday eve = 4
           /\ valid_date sat /\ year sat = y /\ weekday sat = 5
           /\ toordinal sat = toordinal eve + 1.
Proof.
  apply (midsummer_rules_select_one_date counting_source 2024 1 0%nat).
  in_range.
Defined.

(** A window of seven days from 30 or 31 October: in every supported year
    exactly one of its days falls on the given weekday. *)
Lemma autumn_window_one_date (wd : vWeekday) (first y : Z) :
  MINYEAR <= y <= MAXYEAR -> 30 <= first <= 31 ->
  exists x,
    valid_date x /\ year x = y /\ weekday x = weekday_number wd
    /\ (month x = 10 /\ first <= day x <= 31
        \/ month x = 11 /\ 1 <= day x <= first - 25)
    /\ toordinal x - toordinal (mkdate y 10 first) <= 6
    /\ toordinal (mkdate y 10 first) <= toordinal x
    /\ forall d, valid_date d -> year d = y ->
         (month d = 10 /\ first <= day d <= 31
          \/ month d = 11 /\ 1 <= day d <= first - 25) ->
         weekday d = weekday_number wd -> d = x.
Proof.
  intros Hy Hf.
  destruct (weekday_in_week (toordinal (mkdate y 10 first))
              (weekday_number wd) (weekday_number_range wd))
    as (k & Hk & Hwk & Huniq).
  assert (Ho10 : forall dd,
    toordinal (mkdate y 10 dd) = toordinal (mkdate y 10 first) + (dd - first)).
  { intros dd. rewrite (toordinal_same_year y 10 first 10 dd). lia. }
  assert (Ho11 : forall dd,
    toordinal (mkdate y 11 dd)
    = toordinal (mkdate y 10 first) + (dd + 31 - first)).
  { intros dd. rewrite (toordinal_same_year y 10 first 11 dd).
    unfold _days_before_month. tables. closed_tests. lia. }
  assert (Hcase : first + k <= 31 \/ 31 < first + k) by lia.
  destruct Hcase as [Hin|Hout].
  - exists (mkdate y 10 (first + k)). cbn [year month day].
    assert (Hwd : weekday (mkdate y 10 (first + k)) = weekday_number wd).
    { unfold weekday. rewrite Ho10, <- Hwk. f_equal. lia. }
    split.
    { repeat split; cbn [year month day]; try lia.
      rewrite days_in_month_not_february by lia. tables. lia. }
    split; [reflexivity|]. split; [exact Hwd|]. split; [left; lia|].
    rewrite Ho10. split; [lia|]. split; [lia|].
    intros d Hv Hyd Hwin Hw. destruct d as [y' m dd].
    cbn [year month day] in *. subst y'. unfold weekday in Hw.
    destruct Hwin as [[-> Hdd]|[-> Hdd]].
    + rewrite Ho10 in Hw. f_equal. enough (dd - first = k) by lia.
      apply Huniq; [lia|]. rewrite <- Hw. f_equal; lia.
    + rewrite Ho11 in Hw. exfalso.
      enough (dd + 31 - first = k) by lia.
      apply Huniq; [lia|]. rewrite <- Hw. f_equal; lia.
  - exists (mkdate y 11 (first + k - 31)). cbn [year month day].
    assert (Hwd : weekday (mkdate y 11 (first + k - 31)) = weekday_number wd).
    { unfold weekday. rewrite Ho11, <- Hwk. f_equal. lia. }
    split.
    { repeat split; cbn [year month day]; try lia.
      rewrite days_in_month_not_february by lia. tables. lia. }
    split; [reflexivity|]. split; [exact Hwd|]. split; [right; lia|].
    rewrite Ho11. split; [lia|]. split; [lia|].
    intros d Hv Hyd Hwin Hw. destruct d as [y' m dd].
    cbn [year month day] in *. subst y'. unfold weekday in Hw.
    destruct Hwin as [[-> Hdd]|[-> Hdd]].
    + rewrite Ho10 in Hw. exfalso. enough (dd - first = k) by lia.
      apply Huniq; [lia|]. rewrite <- Hw. f_equal; lia.
    + rewrite Ho11 in Hw. f_equal. enough (dd + 31 - first = k) by lia.
      apply Huniq; [lia|]. rewrite <- Hw. f_equal; lia.
Qed.

(** X8: the rules of Allhelgonaafton and Alla helgons dag in a generated
    document are satisfied, in every supported year, by the one Friday
    between 30 October and 5 November and by the one Saturday between
    31 October and 6 November, which is the day after that Friday. *)
Theorem all_saints_rules_select_in_window (src : nat -> UUID)
    (sy count : Z) (n : nat) :
  supported sy count ->
  exists doc n' e1 e2 r1 r2,
    generate src sy count n = inr (doc, n')
    /\ In e1 (subcomponents doc) /\ summary e1 = "Allhelgonaafton"
    /\ rrule e1 = Some r1
    /\ In e2 (subcomponents doc) /\ summary e2 = "Alla helgons dag"
    /\ rrule e2 = Some r2
    /\ forall y, MINYEAR <= y <= MAXYEAR ->
         exists eve sat,
           valid_date eve /\ year eve = y /\ weekday eve = 4
           /\ (month eve = 10 /\ 30 <= day eve <= 31
               \/ month eve = 11 /\ 1 <= day eve <= 5)
           /\ satisfies r1 eve
           /\ valid_date sat /\ year sat = y /\ weekday sat = 5
           /\ (month sat = 10 /\ day sat = 31
               \/ month sat = 11 /\ 1 <= day sat <= 6)
           /\ satisfies r2 sat
           /\ toordinal sat = toordinal eve + 1
           /\ (forall d, valid_date d -> year d = y ->
                 (month d = 10 /\ 30 <= day d <= 31
                  \/ month d = 11 /\ 1 <= day d <= 5) ->
                 satisfies r1 d -> d = eve)
           /\ (forall d, valid_date d -> year d = y ->
                 (month d = 10 /\ day d = 31
                  \/ month d = 11 /\ 1 <= day d <= 6) ->
                 satisfies r2 d -> d = sat).
Proof.
  intros Hs. do 6 eexists.
  split; [apply generate_supported; exact Hs|]. cbn [subcomponents].
  split; [apply window_event_in_expected; rewrite expected_events_window;
          cbv zeta; right; right; left; reflexivity|].
  split; [reflexivity|]. split; [reflexivity|].
  split; [apply window_event_in_expected; rewrite expected_events_window;
          cbv zeta; right; right; right; left; reflexivity|].
  split; [reflexivity|]. split; [reflexivity|].
  intros y Hy.
  destruct (autumn_window_one_date FR 30 y Hy ltac:(lia))
    as (eve & Hv1 & Hy1 & Hw1 & Hin1 & Hhi1 & Hlo1 & Hu1).
  destruct (autumn_window_one_date SA 31 y Hy ltac:(lia))
    as (sat & Hv2 & Hy2 & Hw2 & Hin2 & Hhi2 & Hlo2 & Hu2).
  exists eve, sat.
  split; [exact Hv1|]. split; [exact Hy1|]. split; [exact Hw1|].
  split; [lia|].
  split; [apply satisfies_window_rule; cbn [In ints_of]; split;
          [exact Hw1 | lia]|].
  split; [exact Hv2|]. split; [exact Hy2|]. split; [exact Hw2|].
  split; [lia|].
  split; [apply satisfies_window_rule; cbn [In ints_of]; split;
          [exact Hw2 | lia]|].
  split.
  { unfold weekday in Hw1, Hw2. cbn [weekday_number] in Hw1, Hw2.
    rewrite (toordinal_same_year y 10 30 10 31) in Hhi2, Hlo2.
    Z.to_euclidean_division_equations; lia. }
  split.
  - intros d Hv Hyd Hwin Hsat. apply satisfies_window_rule in Hsat.
    apply Hu1; [assumption | assumption | lia | apply Hsat].
  - intros d Hv Hyd Hwin Hsat. apply satisfies_window_rule in Hsat.
    apply Hu2; [assumption | assumption | lia | apply Hsat].
Qed.

(** One year from 2024. *)
Lemma all_saints_rules_select_in_window_witness :
  exists doc n' e1 e2 r1 r2,
    generate counting_source 2024 1 0%nat = inr (doc, n')
    /\ In e1 (subcomponents doc) /\ summary e1 = "Allhelgonaafton"
    /\ rrule e1 = Some r1
    /\ In e2 (subcomponents doc) /\ summary e2 = "Alla helgons dag"
    /\ rrule e2 = Some r2
    /\ forall y, MINYEAR <= y <= MAXYEAR ->
         exists eve sat,
           valid_date eve /\ year eve = y /\ weekday eve = 4
           /\ (month eve = 10 /\ 30 <= day eve <= 31
               \/ month eve = 11 /\ 1 <= day eve <= 5)
           /\ satisfies r1 eve
           /\ valid_date sat /\ year sat = y /\ weekday sat = 5
           /\ (month sat = 10 /\ day sat = 31
               \/ month sat = 11 /\ 1 <= day sat <= 6)
           /\ satisfies r2 sat
           /\ toordinal sat = toordinal eve + 1
           /\ (forall d, valid_date d -> year d = y ->
                 (month d = 10 /\ 30 <= day d <= 31
                  \/ month d = 11 /\ 1 <= day d <= 5) ->
                 satisfies r1 d -> d = eve)
           /\ (forall d, valid_date d -> year d = y ->
                 (month d = 10 /\ day d = 31
                  \/ month d = 11 /\ 1 <= day d <= 6) ->
                 satisfies r2 d -> d = sat).
Proof.
  apply (all_saints_rules_select_in_window counting_source 2024 1 0%nat).
  in_range.
Defined.

(** X9: the rule of Allhelgonaafton does not single out the window from
    30 October to 5 November: its month days 1 to 5 are paired with October
    as well, so in every supported year in which 1 October falls on a Monday
    to Friday, the Friday among 1 to 5 October satisfies the rule too; in
    2024 both 4 October and 1 November satisfy it. *)
Theorem all_saints_eve_rule_in_october (src : nat -> UUID) (sy count : Z)
    (n : nat) :
  supported sy count ->
  exists doc n' e r,
    generate src sy count n = inr (doc, n')
    /\ In e (subcomponents doc) /\ summary e = "Allhelgonaafton"
    /\ rrule e = Some r
    /\ (forall y, MINYEAR <= y <= MAXYEAR ->
          weekday (mkdate y 10 1) <= 4 ->
          exists d,
            valid_date d /\ year d = y /\ month d = 10
            /\ 1 <= day d <= 5 /\ satisfies r d)
    /\ satisfies r (mkdate 2024 10 4)
    /\ satisfies r (mkdate 2024 11 1).
Proof.
  intros Hs. do 4 eexists.
  split; [apply generate_supported; exact Hs|]. cbn [subcomponents].
  split; [apply window_event_in_expected; rewrite expected_events_window;
          cbv zeta; right; right; left; reflexivity|].
  split; [reflexivity|]. split; [reflexivity|].
  split; [|split; apply satisfies_window_rule; vm_compute; intuition].
  intros y Hy Hw.
  assert (H0 : 0 <= weekday (mkdate y 10 1)).
  { unfold weekday. Z.to_euclidean_division_equations; lia. }
  exists (mkdate y 10 (5 - weekday (mkdate y 10 1))).
  cbn [year month day].
  split.
  { repeat split; cbn [year month day]; try lia.
    rewrite days_in_month_not_february by lia. tables. lia. }
  split; [reflexivity|]. split; [reflexivity|]. split; [lia|].
  apply satisfies_window_rule. cbn [year month day In ints_of].
  split; [|split; lia].
  set (w := weekday (mkdate y 10 1)) in *.
  unfold weekday. rewrite (toordinal_same_year y 10 1 10 (5 - w)).
  cbn [weekday_number]. unfold weekday in w. subst w.
  Z.to_euclidean_division_equations; lia.
Qed.

(** One year from 2024. *)
Lemma all_saints_eve_rule_in_october_witness :
  exists doc n' e r,
    generate counting_source 2024 1 0%nat = inr (doc, n')
    /\ In e (subcomponents doc) /\ summary e = "Allhelgonaafton"
    /\ rrule e = Some r
    /\ (forall y, MINYEAR <= y <= MAXYEAR ->
          weekday (mkdate y 10 1) <= 4 ->
          exists d,
            valid_date d /\ year d = y /\ month d = 10
            /\ 1 <= day d <= 5 /\ satisfies r d)
    /\ satisfies r (mkdate 2024 10 4)
    /\ satisfies r (mkdate 2024 11 1).
Proof.
  apply (all_saints_eve_rule_in_october counting_source 2024 1 0%nat).
  in_range.
Defined.

(** X10: the anchor date of a weekday-window event is 1 January of
    [start_year], which never satisfies the event's own rule: the rule's
    months are June, or October and November. *)
Theorem window_anchor_outside_rule (src : nat -> UUID) (sy count : Z)
    (n : nat) :
  supported sy count ->
  exists doc n',
    generate src sy count n = inr (doc, n')
    /\ Forall
         (fun e =>
            has_kind WeekdayWindow e = true ->
            dtstart e = mkdate sy 1 1
            /\ exists r, rrule e = Some r /\ ~ satisfies r (dtstart e))
         (subcomponents doc).
Proof.
  intros Hs. eexists. eexists.
  split; [apply generate_supported; exact Hs|].
  cbn [subcomponents]. apply Forall_of_filter.
  rewrite expected_events_window. cbv zeta.
  repeat (apply Forall_cons;
          [ split; [reflexivity|]; eexists; split; [reflexivity|];
            intros Hsat; apply satisfies_window_rule in Hsat;
            destruct Hsat as (_ & _ & Hm); cbn in Hm; lia
          | ]).
  apply Forall_nil.
Qed.

(** One year from 2024. *)
Lemma window_anchor_outside_rule_witness :
  exists doc n',
    generate counting_source 2024 1 0%nat = inr (doc, n')
    /\ Forall
         (fun e =>
            has_kind WeekdayWindow e = true ->
            dtstart e = mkdate 2024 1 1
            /\ exists r, rrule e = Some r /\ ~ satisfies r (dtstart e))
         (subcomponents doc).
Proof.
  apply (window_anchor_outside_rule counting_source 2024 1 0%nat). in_range.
Defined.
